(** * Kline2: daily-bar decoder, trading ledger and session statistics

    A shallow embedding of [Kline2.py]: [read_day_file] (the decoder of the
    32-byte daily-quote records), the trading state of [TradingSimulator]
    ([_reset_trading_state], [_execute_trade], [_start_simulation] from the
    bytes of the chosen file on), the two statistics of [_show_summary]
    (win rate, maximum drawdown), and what [_update_chart] and
    [_update_info] compute before they draw.

    Numbers.  Prices and balances are Python/NumPy floats in the program.
    They are embedded as exact rationals ([Q]): neither the rounding of
    float64 results nor their overflow to infinity is modelled, so the
    finite amounts of a buy or a sell are those of the program up to that
    rounding only.
    The special values that NumPy float64 arithmetic produces instead of
    raising (infinity, not-a-number) are kept, as the type [num], because
    the trade path can reach them: see [floor_divide]. *)

From Stdlib Require Import ZArith QArith Qround Qminmax Lqa Lia List Bool Ascii String.
From Stdlib.Strings Require Import Byte.
Import ListNotations.

Local Open Scope char_scope.
Local Open Scope Z_scope.

(* ================================================================== *)
(** * Part I.  Definitions                                            *)
(* ================================================================== *)

(** ** Global configuration *)

Definition INITIAL_CAPITAL : Z := 100000.
Definition SIMULATION_DAYS : nat := 120.

(** ** Bytes, slices and [struct.unpack('IIIIIfII', ...)] *)

(** [buffer[lo:hi]] for [0 <= lo <= hi]: Python slices clip at the end of
    the buffer, they never raise. *)
Definition slice {A : Type} (buffer : list A) (lo hi : nat) : list A :=
  firstn (hi - lo) (skipn lo buffer).

Definition byte_val (b : byte) : Z := Z.of_N (Byte.to_N b).

(** The four bytes at offset [off], least significant first.  The format
    string has no byte-order prefix, so [struct] uses the native order and
    native sizes of the machine; the program is a Windows desktop tool
    (x86: little-endian, 4-byte [I] and [f], no padding in this layout). *)
Definition u32_at (buffer : list byte) (off : nat) : Z :=
  byte_val (nth off buffer x00)
  + 256 * byte_val (nth (off + 1) buffer x00)
  + 65536 * byte_val (nth (off + 2) buffer x00)
  + 16777216 * byte_val (nth (off + 3) buffer x00).

(** The tuple returned by [struct.unpack]: eight fields.  Field 5 is the
    [f] (float) field; the program never reads it, it is kept as its bit
    pattern. *)
Record raw_record : Type := mk_raw {
  raw0 : Z; raw1 : Z; raw2 : Z; raw3 : Z; raw4 : Z;
  raw5_bits : Z; raw6 : Z; raw7 : Z
}.

(** [struct.unpack] raises [struct.error] unless the buffer has exactly the
    size of the format (32 bytes). *)
Definition struct_unpack (rec : list byte) : option raw_record :=
  if Nat.eqb (List.length rec) 32 then
    Some (mk_raw (u32_at rec 0) (u32_at rec 4) (u32_at rec 8) (u32_at rec 12)
                 (u32_at rec 16) (u32_at rec 20) (u32_at rec 24) (u32_at rec 28))
  else None.

(** ** [f"{n}"] and [datetime.strptime(s, "%Y%m%d")] *)

Definition digit_char (d : Z) : ascii := ascii_of_nat (48 + Z.to_nat d).

Fixpoint str_int_aux (fuel : nat) (n : Z) (acc : list ascii) : list ascii :=
  match fuel with
  | O => acc
  | S fuel' =>
      if n <? 10 then digit_char n :: acc
      else str_int_aux fuel' (n / 10) (digit_char (n mod 10) :: acc)
  end.

(** Decimal text of a 32-bit unsigned integer (at most ten digits, no
    leading zero, no sign). *)
Definition str_int (n : Z) : list ascii := str_int_aux 10 n [].

Definition in_range (lo hi c : ascii) : bool :=
  (nat_of_ascii lo <=? nat_of_ascii c)%nat && (nat_of_ascii c <=? nat_of_ascii hi)%nat.

Definition is_char (x c : ascii) : bool := in_range x x c.

Definition digit_val (c : ascii) : Z := Z.of_nat (nat_of_ascii c - 48).

(** A regular-expression group is modelled by the list of the ways it can
    match a prefix of the text, in the order in which the backtracking
    matcher tries them: each entry is the integer value of the matched text
    and the text that is left. *)
Definition matches : Type := list (Z * list ascii).

(** [%Y] is [\d\d\d\d]. *)
Definition re_Y (s : list ascii) : matches :=
  match s with
  | a :: b :: c :: d :: rest =>
      if in_range "0" "9" a && in_range "0" "9" b
         && in_range "0" "9" c && in_range "0" "9" d
      then [(1000 * digit_val a + 100 * digit_val b + 10 * digit_val c + digit_val d, rest)]
      else []
  | _ => []
  end.

Definition two_chars (p1 p2 : ascii -> bool) (s : list ascii) : matches :=
  match s with
  | a :: b :: rest =>
      if p1 a && p2 b then [(10 * digit_val a + digit_val b, rest)] else []
  | _ => []
  end.

Definition one_char (p : ascii -> bool) (s : list ascii) : matches :=
  match s with
  | a :: rest => if p a then [(digit_val a, rest)] else []
  | _ => []
  end.

(** [%m] is [1[0-2]|0[1-9]|[1-9]]. *)
Definition re_m (s : list ascii) : matches :=
  two_chars (is_char "1") (in_range "0" "2") s
  ++ two_chars (is_char "0") (in_range "1" "9") s
  ++ one_char (in_range "1" "9") s.

(** [%d] is [3[0-1]|[1-2]\d|0[1-9]|[1-9]| [1-9]]; the last alternative
    starts with a blank and gives the value of the digit after it. *)
Definition re_d (s : list ascii) : matches :=
  two_chars (is_char "3") (in_range "0" "1") s
  ++ two_chars (in_range "1" "2") (in_range "0" "9") s
  ++ two_chars (is_char "0") (in_range "1" "9") s
  ++ one_char (in_range "1" "9") s
  ++ match s with
     | a :: b :: rest =>
         if is_char " " a && in_range "1" "9" b then [(digit_val b, rest)] else []
     | _ => []
     end.

(** All the ways [%m%d] matches a prefix of [s], first choice first: the
    alternatives of [%d] are tried inside each alternative of [%m]. *)
Definition re_md (s : list ascii) : list (Z * Z * list ascii) :=
  flat_map (fun m => map (fun d => (fst m, fst d, snd d)) (re_d (snd m))) (re_m s).

(** All the ways [%Y%m%d] matches a prefix of [s], first choice first. *)
Definition re_Ymd (s : list ascii) : list (Z * Z * Z * list ascii) :=
  flat_map (fun Y => map (fun md => (fst Y, fst (fst md), snd (fst md), snd md))
                         (re_md (snd Y)))
           (re_Y s).

Definition is_leap (y : Z) : bool :=
  (y mod 4 =? 0) && (negb (y mod 100 =? 0) || (y mod 400 =? 0)).

Definition days_in_month (y m : Z) : Z :=
  if m =? 2 then (if is_leap y then 29 else 28)
  else if (m =? 4) || (m =? 6) || (m =? 9) || (m =? 11) then 30
  else 31.

(** A [datetime] at midnight: only the calendar day is ever set. *)
Record datetime : Type := mk_date { year : Z; month : Z; day : Z }.

(** The constructor of [datetime] rejects what is not a calendar day. *)
Definition valid_date (y m d : Z) : bool :=
  (1 <=? y) && (y <=? 9999) && (1 <=? m) && (m <=? 12)
  && (1 <=? d) && (d <=? days_in_month y m).

(** [datetime.strptime(s, "%Y%m%d")]: the first match of the pattern at the
    start of [s] is taken; text left after it ("unconverted data remains"),
    no match, or an impossible day are a [ValueError] ([None]). *)
Definition strptime_Ymd (s : list ascii) : option datetime :=
  match re_Ymd s with
  | (y, m, d, rest) :: _ =>
      match rest with
      | [] => if valid_date y m d then Some (mk_date y m d) else None
      | _ :: _ => None
      end
  | [] => None
  end.

(** ** [read_day_file] *)

(** One row of the returned frame: the [Date] index and the five columns. *)
Record bar : Type := mk_bar {
  Date : datetime;
  Open : Q; High : Q; Low : Q; Close : Q;
  Volume : Z
}.

(** The body of [for i in range(num_records)], threaded through the list
    [data]; [None] is an exception, which ends the loop. *)
Definition read_record (buffer : list byte) (data : option (list bar)) (i : nat)
  : option (list bar) :=
  match data with
  | None => None
  | Some data =>
      match struct_unpack (slice buffer (i * 32) ((i + 1) * 32)) with
      | None => None
      | Some raw_data =>
          match strptime_Ymd (str_int (raw0 raw_data)) with
          | None => None
          | Some date =>
              Some (data ++ [mk_bar date
                                    (inject_Z (raw1 raw_data) / 100)%Q
                                    (inject_Z (raw2 raw_data) / 100)%Q
                                    (inject_Z (raw3 raw_data) / 100)%Q
                                    (inject_Z (raw4 raw_data) / 100)%Q
                                    (raw6 raw_data)])
          end
      end
  end.

(** [read_day_file] on the bytes of the file.  Every exception is re-raised
    as one [ValueError]: the result is [None].  The frame is the list of its
    rows in file order. *)
Definition read_day_file (buffer : list byte) : option (list bar) :=
  let num_records := (List.length buffer / 32)%nat in
  fold_left (read_record buffer) (seq 0 num_records) (Some []).

(** ** Numbers of the trading state *)

(** The value of a Python number of the ledger.  [Fin q] is a finite number
    (a Python [int] or a float, taken exactly); the other three are the
    float64 values infinity, minus infinity and not-a-number. *)
Inductive num : Type :=
| Fin (q : Q)
| PInf
| NInf
| NaN.

Definition Qlt_bool (x y : Q) : bool := negb (Qle_bool y x).

Definition num_neg (a : num) : num :=
  match a with
  | Fin x => Fin (- x)%Q
  | PInf => NInf
  | NInf => PInf
  | NaN => NaN
  end.

Definition num_add (a b : num) : num :=
  match a, b with
  | NaN, _ | _, NaN => NaN
  | Fin x, Fin y => Fin (x + y)%Q
  | PInf, NInf | NInf, PInf => NaN
  | PInf, _ | _, PInf => PInf
  | NInf, _ | _, NInf => NInf
  end.

Definition num_sub (a b : num) : num := num_add a (num_neg b).

(** Infinity scaled by a finite factor: its sign follows the factor, and
    infinity times zero is not a number. *)
Definition scale_inf (positive : bool) (x : Q) : num :=
  if Qlt_bool 0 x then (if positive then PInf else NInf)
  else if Qlt_bool x 0 then (if positive then NInf else PInf)
  else NaN.

Definition num_mul (a b : num) : num :=
  match a, b with
  | NaN, _ | _, NaN => NaN
  | Fin x, Fin y => Fin (x * y)%Q
  | Fin x, PInf | PInf, Fin x => scale_inf true x
  | Fin x, NInf | NInf, Fin x => scale_inf false x
  | PInf, PInf | NInf, NInf => PInf
  | PInf, NInf | NInf, PInf => NInf
  end.

(** [a > b], [a < b], [a == b], [a >= b]: every comparison with
    not-a-number is false. *)
Definition num_gt (a b : num) : bool :=
  match a, b with
  | Fin x, Fin y => Qlt_bool y x
  | Fin _, NInf => true
  | PInf, Fin _ => true
  | PInf, NInf => true
  | _, _ => false
  end.

Definition num_lt (a b : num) : bool := num_gt b a.

Definition num_eq (a b : num) : bool :=
  match a, b with
  | Fin x, Fin y => Qeq_bool x y
  | PInf, PInf | NInf, NInf => true
  | _, _ => false
  end.

Definition num_ge (a b : num) : bool := num_gt a b || num_eq a b.

(** [a // price].  The price comes out of a row of the pandas frame
    ([current_bar.Close]), so it is a NumPy float64 and the division is
    NumPy's [floor_divide], whatever the left operand is.  For a divisor
    other than zero this is the floor of the quotient.  For a zero divisor
    NumPy does not raise [ZeroDivisionError] as a Python float would: it
    gives [a / 0.0] (infinity with the sign of [a], not-a-number for
    [0 // 0.0]) and emits a [RuntimeWarning] (NumPy 1.20 and later; older
    versions give not-a-number for every dividend, which passes the guard
    [max_shares < 1] in the same way).  An infinite dividend gives
    not-a-number for a non-zero divisor.  The divisor is always finite: it
    is the close of a decoded bar, and that zero is the positive zero
    [0/100]. *)
Definition floor_divide (a : num) (price : Q) : num :=
  if Qeq_bool price 0 then
    match a with
    | Fin x => scale_inf true x
    | other => other
    end
  else
    match a with
    | Fin x => Fin (inject_Z (Qfloor (x / price)))
    | _ => NaN
    end.

(** [a / b] on float64 values: again no exception for a zero divisor. *)
Definition true_divide (a b : num) : num :=
  match a, b with
  | NaN, _ | _, NaN => NaN
  | Fin x, Fin y => if Qeq_bool y 0 then scale_inf true x else Fin (x / y)%Q
  | Fin _, _ => Fin 0
  | PInf, Fin y => if Qlt_bool y 0 then NInf else PInf
  | NInf, Fin y => if Qlt_bool y 0 then PInf else NInf
  | _, _ => NaN
  end.

(** ** The trading state of [TradingSimulator] *)

Inductive action : Type := buy | sell | hold.

(** One entry of [trade_log] (a dict with these five keys). *)
Record trade : Type := mk_trade {
  trade_date : datetime;
  trade_action : action;
  trade_price : Q;
  trade_shares : num;
  trade_cash : num
}.

(** The fields of [self] that [_reset_trading_state] and [_execute_trade]
    read or write.  The two signal frames have the date as index and one
    column [Price]; they are kept as lists of rows. *)
Record simulator : Type := mk_sim {
  current_data : list bar;
  current_index : nat;
  cash : num;
  position : num;
  trade_log : list trade;
  equity_curve : list num;
  buy_signals : list (datetime * Q);
  sell_signals : list (datetime * Q)
}.

Definition date_eqb (a b : datetime) : bool :=
  (year a =? year b) && (month a =? month b) && (day a =? day b).

(** [frame.loc[date] = {'Price': price}]: the row with that label is
    overwritten, or a new last row is added. *)
Fixpoint loc_set (frame : list (datetime * Q)) (date : datetime) (price : Q)
  : list (datetime * Q) :=
  match frame with
  | [] => [(date, price)]
  | (d, p) :: rows =>
      if date_eqb d date then (d, price) :: rows
      else (d, p) :: loc_set rows date price
  end.

Definition set_current_data (s : simulator) (v : list bar) : simulator :=
  mk_sim v (current_index s) (cash s) (position s) (trade_log s)
         (equity_curve s) (buy_signals s) (sell_signals s).
Definition set_current_index (s : simulator) (v : nat) : simulator :=
  mk_sim (current_data s) v (cash s) (position s) (trade_log s)
         (equity_curve s) (buy_signals s) (sell_signals s).
Definition set_cash (s : simulator) (v : num) : simulator :=
  mk_sim (current_data s) (current_index s) v (position s) (trade_log s)
         (equity_curve s) (buy_signals s) (sell_signals s).
Definition set_position (s : simulator) (v : num) : simulator :=
  mk_sim (current_data s) (current_index s) (cash s) v (trade_log s)
         (equity_curve s) (buy_signals s) (sell_signals s).
Definition set_trade_log (s : simulator) (v : list trade) : simulator :=
  mk_sim (current_data s) (current_index s) (cash s) (position s) v
         (equity_curve s) (buy_signals s) (sell_signals s).
Definition set_equity_curve (s : simulator) (v : list num) : simulator :=
  mk_sim (current_data s) (current_index s) (cash s) (position s) (trade_log s)
         v (buy_signals s) (sell_signals s).
Definition set_buy_signals (s : simulator) (v : list (datetime * Q)) : simulator :=
  mk_sim (current_data s) (current_index s) (cash s) (position s) (trade_log s)
         (equity_curve s) v (sell_signals s).
Definition set_sell_signals (s : simulator) (v : list (datetime * Q)) : simulator :=
  mk_sim (current_data s) (current_index s) (cash s) (position s) (trade_log s)
         (equity_curve s) (buy_signals s) v.

(** Total equity at price [p]: cash plus the position marked at [p]
    ([self.cash + self.position * price]). *)
Definition equity (s : simulator) (p : Q) : num :=
  num_add (cash s) (num_mul (position s) (Fin p)).

(** [__init__]: the state before any file is loaded. *)
Definition init_simulator : simulator :=
  mk_sim [] 64 (Fin (inject_Z INITIAL_CAPITAL)) (Fin 0) []
         [Fin (inject_Z INITIAL_CAPITAL)] [] [].

Definition _reset_trading_state (self : simulator) : simulator :=
  mk_sim (current_data self) 64 (Fin (inject_Z INITIAL_CAPITAL)) (Fin 0) []
         [Fin (inject_Z INITIAL_CAPITAL)] [] [].

(** ** Exceptions and the state monad of the method bodies *)

Inductive error : Type :=
| ValueError_sell_first     (* raised by a buy while a position is held *)
| ValueError_no_cash        (* raised by a buy that affords no share *)
| ValueError_no_position    (* raised by a sell with nothing to sell *)
| ValueError_no_history     (* raised when the file has too few rows *)
| ValueError_read_failed    (* raised by read_day_file *)
| IndexError.               (* iloc outside the frame *)

Inductive result (A : Type) : Type :=
| Ok (a : A)
| Raise (e : error).
Arguments Ok {A} a.
Arguments Raise {A} e.

(** A method body: it returns or raises, and in both cases the object is
    left as the assignments made so far have it (no roll-back). *)
Definition M (A : Type) : Type := simulator -> result A * simulator.

Definition ret {A : Type} (a : A) : M A := fun s => (Ok a, s).
Definition raise {A : Type} (e : error) : M A := fun s => (Raise e, s).
Definition bind {A B : Type} (m : M A) (k : A -> M B) : M B :=
  fun s => match m s with
           | (Ok a, s') => k a s'
           | (Raise e, s') => (Raise e, s')
           end.
Definition get : M simulator := fun s => (Ok s, s).
Definition modify (f : simulator -> simulator) : M unit := fun s => (Ok tt, f s).

Notation "x <- m ;; k" := (bind m (fun x => k))
  (at level 61, m at next level, right associativity).
Notation "m ;;; k" := (bind m (fun _ => k))
  (at level 61, right associativity).

(** [frame.iloc[i]] for [i >= 0]. *)
Definition iloc (frame : list bar) (i : nat) : M bar :=
  match nth_error frame i with
  | Some row => ret row
  | None => raise IndexError
  end.

(** ** [_execute_trade] *)

(** The statements of the [try] block, up to the redrawing of the chart. *)
Definition trade_steps (act : action) : M unit :=
  self <- get ;;
  current_bar <- iloc (current_data self) (current_index self) ;;
  let price := Close current_bar in
  let date := Date current_bar in
  match act with
  | buy =>
      self <- get ;;
      if num_gt (position self) (Fin 0) then raise ValueError_sell_first
      else
        let max_shares := floor_divide (cash self) price in
        if num_lt max_shares (Fin 1) then raise ValueError_no_cash
        else
          modify (fun s => set_position s max_shares) ;;;
          modify (fun s => set_cash s (num_sub (cash s) (num_mul max_shares (Fin price)))) ;;;
          modify (fun s => set_buy_signals s (loc_set (buy_signals s) date price))
  | sell =>
      self <- get ;;
      if num_eq (position self) (Fin 0) then raise ValueError_no_position
      else
        modify (fun s => set_cash s (num_add (cash s) (num_mul (position s) (Fin price)))) ;;;
        modify (fun s => set_position s (Fin 0)) ;;;
        modify (fun s => set_sell_signals s (loc_set (sell_signals s) date price))
  | hold => ret tt
  end ;;;
  modify (fun s => set_trade_log s
            (trade_log s ++
             [mk_trade date act price
                       (match act with buy => position s | _ => Fin 0 end)
                       (cash s)])) ;;;
  modify (fun s => set_equity_curve s (equity_curve s ++ [equity s price])) ;;;
  modify (fun s => set_current_index s (current_index s + 1)).

(** What the user is shown after a click. *)
Inductive outcome : Type :=
| Executed                    (* chart and info line are redrawn *)
| EndOfData                   (* information box: end of the data *)
| TradeFailed (e : error).    (* warning box with the text of [e] *)

(** The guard on the cursor: [current_index >= len(current_data) - 1]. *)
Definition at_end (self : simulator) : bool :=
  Z.of_nat (current_index self) >=? Z.of_nat (List.length (current_data self)) - 1.

(** [_execute_trade(action)]: the guard, then the [try] block, whose
    handler shows the exception and goes on. *)
Definition _execute_trade (act : action) (self : simulator) : outcome * simulator :=
  if at_end self
  then (EndOfData, self)
  else
    match trade_steps act self with
    | (Ok _, self') => (Executed, self')
    | (Raise e, self') => (TradeFailed e, self')
    end.

(** A sequence of clicks on the three trade buttons. *)
Definition run (acts : list action) (self : simulator) : simulator :=
  fold_left (fun s a => snd (_execute_trade a s)) acts self.

(** ** [_start_simulation], from the bytes of the chosen file on *)

Definition required_days : nat := (SIMULATION_DAYS + 65)%nat.

(** The steps after the file has been chosen.  [randint] stands for
    [random.randint]; [buffer] is the content of the file. *)
Definition start_steps (buffer : list byte) (randint : nat -> nat -> nat) : M unit :=
  match read_day_file buffer with
  | None => raise ValueError_read_failed
  | Some frame =>
      modify (fun s => set_current_data s frame) ;;;
      self <- get ;;
      if (List.length (current_data self) <? required_days)%nat
      then raise ValueError_no_history
      else
        let start_idx := randint 0%nat (List.length (current_data self) - required_days)%nat in
        modify (fun s => set_current_data s
                  (slice (current_data s) start_idx (start_idx + required_days))) ;;;
        modify _reset_trading_state
  end.

Definition _start_simulation (buffer : list byte) (randint : nat -> nat -> nat)
           (self : simulator) : simulator :=
  snd (start_steps buffer randint self).

(** ** [_show_summary] *)

(** The truth value of [last_buy_price] in [... and last_buy_price]:
    [None] is false, and so is the number zero. *)
Definition truthy (last_buy_price : option Q) : bool :=
  match last_buy_price with
  | None => false
  | Some p => negb (Qeq_bool p 0)
  end.

(** The three variables of the win-rate loop. *)
Record win_state : Type := mk_win {
  win_trades : Z;
  total_trades : Z;
  last_buy_price : option Q
}.

Definition win_step (st : win_state) (t : trade) : win_state :=
  match trade_action t with
  | buy => mk_win (win_trades st) (total_trades st) (Some (trade_price t))
  | sell =>
      if truthy (last_buy_price st) then
        let total := total_trades st + 1 in
        let wins :=
          match last_buy_price st with
          | Some b => if Qlt_bool b (trade_price t) then win_trades st + 1 else win_trades st
          | None => win_trades st
          end in
        mk_win wins total None
      else st
  | hold => st
  end.

Definition win_loop (log : list trade) : win_state :=
  fold_left win_step log (mk_win 0 0 None).

Definition win_rate (log : list trade) : Q :=
  let st := win_loop log in
  if 0 <? total_trades st
  then (inject_Z (win_trades st) / inject_Z (total_trades st))%Q
  else 0%Q.

(** The two variables of the drawdown loop: [peak] and [max_drawdown]. *)
Definition drawdown_step (st : num * num) (value : num) : num * num :=
  let peak := if num_gt value (fst st) then value else fst st in
  let drawdown := true_divide (num_sub peak value) peak in
  (peak, if num_gt drawdown (snd st) then drawdown else snd st).

(** [None]: [equity_curve[0]] on an empty list raises [IndexError]. *)
Definition max_drawdown (curve : list num) : option num :=
  match curve with
  | [] => None
  | first :: _ => Some (snd (fold_left drawdown_step curve (first, Fin 0)))
  end.

(** The figures of the summary box. *)
Record summary : Type := mk_summary {
  sum_final : num;
  sum_return : num;
  sum_win_rate : Q;
  sum_max_drawdown : num;
  sum_total_trades : Z
}.

(** [_show_summary]: [None] when there is nothing to report (empty trade
    log). *)
Definition _show_summary (self : simulator) : option summary :=
  match trade_log self with
  | [] => None
  | _ :: _ =>
      match max_drawdown (equity_curve self) with
      | None => None
      | Some dd =>
          let final := last (equity_curve self) NaN in
          Some (mk_summary final
                  (num_sub (true_divide final (Fin (inject_Z INITIAL_CAPITAL))) (Fin 1))
                  (win_rate (trade_log self)) dd
                  (total_trades (win_loop (trade_log self))))
      end
  end.

(** ** The statistics as the specification words them *)

(** Win rate: a buy sets a pending entry price; the next sell consumes it
    and clears it, giving one (entry, exit) pair. *)
Fixpoint paired_trades (pending : option Q) (log : list trade) : list (Q * Q) :=
  match log with
  | [] => []
  | t :: rest =>
      match trade_action t with
      | buy => paired_trades (Some (trade_price t)) rest
      | sell =>
          match pending with
          | Some entry => (entry, trade_price t) :: paired_trades None rest
          | None => paired_trades None rest
          end
      | hold => paired_trades pending rest
      end
  end.

Definition is_win (pair : Q * Q) : bool := Qlt_bool (fst pair) (snd pair).

(** Wins over pairs, 0 when there is no pair. *)
Definition spec_win_rate (log : list trade) : Q :=
  let pairs := paired_trades None log in
  match pairs with
  | [] => 0%Q
  | _ :: _ =>
      (inject_Z (Z.of_nat (List.length (filter is_win pairs)))
       / inject_Z (Z.of_nat (List.length pairs)))%Q
  end.

(** Running peak of a curve, starting from a peak [p] already reached. *)
Fixpoint running_peaks (p : Q) (curve : list Q) : list Q :=
  match curve with
  | [] => []
  | v :: rest => Qmax p v :: running_peaks (Qmax p v) rest
  end.

(** Drawdown at each point: (peak - value) / peak. *)
Definition drawdowns (first : Q) (curve : list Q) : list Q :=
  map (fun pv => ((fst pv - snd pv) / fst pv)%Q)
      (combine (running_peaks first curve) curve).

(** Largest drawdown of a curve that starts with [first]. *)
Definition spec_max_drawdown (first : Q) (rest : list Q) : Q :=
  fold_right Qmax 0%Q (drawdowns first (first :: rest)).

(** ** Predicates and helpers of the statements and proofs *)

(** The row that record [i] of the buffer decodes to, read at absolute
    offsets. *)
Definition bar_at (buffer : list byte) (i : nat) : option bar :=
  match strptime_Ymd (str_int (u32_at buffer (32 * i))) with
  | None => None
  | Some date =>
      Some (mk_bar date
                   (inject_Z (u32_at buffer (32 * i + 4)) / 100)%Q
                   (inject_Z (u32_at buffer (32 * i + 8)) / 100)%Q
                   (inject_Z (u32_at buffer (32 * i + 12)) / 100)%Q
                   (inject_Z (u32_at buffer (32 * i + 16)) / 100)%Q
                   (u32_at buffer (32 * i + 24)))
  end.

Fixpoint all_some {A : Type} (l : list (option A)) : option (list A) :=
  match l with
  | [] => Some []
  | None :: _ => None
  | Some a :: rest =>
      match all_some rest with
      | Some r => Some (a :: r)
      | None => None
      end
  end.

(** The four characters of a two-digit month followed by a two-digit day,
    and the test that the pattern [%m%d] reads them back first. *)
Definition md_text (m d : Z) : list ascii :=
  [digit_char (m / 10); digit_char (m mod 10);
   digit_char (d / 10); digit_char (d mod 10)].

Definition md_first_ok (m d : Z) : bool :=
  match re_md (md_text m d) with
  | (m', d', []) :: _ => (m' =? m) && (d' =? d)
  | _ => false
  end.

Definition Z_range (lo : Z) (n : nat) : list Z :=
  map (fun k => lo + Z.of_nat k) (seq 0 n).

(** The pending entry price is a number other than zero, or there is none. *)
Definition nonzero_entry (pending : option Q) : Prop :=
  match pending with
  | Some p => ~ (p == 0)%Q
  | None => True
  end.

(** No buy of the log is at price zero. *)
Definition nonzero_buys (log : list trade) : Prop :=
  Forall (fun t => trade_action t = buy -> ~ (trade_price t == 0)%Q) log.

(** Each value is at least the one before it. *)
Fixpoint nondecreasing (curve : list Q) : Prop :=
  match curve with
  | x :: (y :: _) as rest => (x <= y)%Q /\ nondecreasing rest
  | _ => True
  end.

(** ** Sample data *)

(** A file of two records: 2023-01-03 (10.50, 11.00, 10.00, 10.80, volume
    123456) and 2023-01-04 (10.80, 11.20, 10.75, 11.11, volume 654321). *)
Definition sample_buffer : list byte :=
  [xd7; xaf; x34; x01; x1a; x04; x00; x00; x4c; x04; x00; x00; xe8; x03; x00; x00;
   x38; x04; x00; x00; x00; x00; xc0; x3f; x40; xe2; x01; x00; x00; x00; x00; x00;
   xd8; xaf; x34; x01; x38; x04; x00; x00; x60; x04; x00; x00; x33; x04; x00; x00;
   x57; x04; x00; x00; x00; x00; x20; x40; xf1; xfb; x09; x00; x07; x00; x00; x00].

Definition sample_bars : list bar :=
  [mk_bar (mk_date 2023 1 3)
          (inject_Z 1050 / 100)%Q (inject_Z 1100 / 100)%Q
          (inject_Z 1000 / 100)%Q (inject_Z 1080 / 100)%Q 123456;
   mk_bar (mk_date 2023 1 4)
          (inject_Z 1080 / 100)%Q (inject_Z 1120 / 100)%Q
          (inject_Z 1075 / 100)%Q (inject_Z 1111 / 100)%Q 654321].

(** A session of seventy equal bars closing at 333.33, just loaded, and the
    same session after one accepted buy. *)
Definition sample_bar : bar :=
  mk_bar (mk_date 2023 1 3) (33000 # 100) (33500 # 100) (32900 # 100) (33333 # 100) 1000.

Definition sample_start : simulator :=
  _reset_trading_state (set_current_data init_simulator (repeat sample_bar 70)).

Definition sample_holding : simulator := snd (_execute_trade buy sample_start).

(** A trade log: buy at 10, sell at 12, buy at 8, sell at 8. *)
Definition sample_log : list trade :=
  [mk_trade (mk_date 2023 1 3) buy 10 (Fin 1) (Fin 0);
   mk_trade (mk_date 2023 1 4) sell 12 (Fin 0) (Fin 12);
   mk_trade (mk_date 2023 1 5) buy 8 (Fin 1) (Fin 4);
   mk_trade (mk_date 2023 1 6) sell 8 (Fin 0) (Fin 12)].

(** An equity curve that rises, falls and recovers in part. *)
Definition sample_curve : list Q := [100000; 110000; 95000; 105000]%Q.

(** A well-formed file with one record of zero prices, written record by
    record.  Record [i] is dated the first of a month (January 2000
    onwards) and has its four prices at 10.00, except record 64, whose
    prices are 0. *)
Definition le_byte (n : Z) : byte :=
  match Byte.of_N (Z.to_N (n mod 256)) with
  | Some b => b
  | None => x00
  end.

Definition le_bytes (n : Z) : list byte :=
  [le_byte n; le_byte (n / 256); le_byte (n / 65536); le_byte (n / 16777216)].

Definition day_record (date open high low close volume : Z) : list byte :=
  le_bytes date ++ le_bytes open ++ le_bytes high ++ le_bytes low
  ++ le_bytes close ++ [x00; x00; x00; x00] ++ le_bytes volume ++ le_bytes 0.

Definition zero_close_record (i : nat) : list byte :=
  let k := Z.of_nat i in
  let price := if Nat.eqb i 64 then 0 else 1000 in
  day_record ((2000 + k / 12) * 10000 + (k mod 12 + 1) * 100 + 1)
             price price price price 1000.

Definition zero_close_file : list byte :=
  flat_map zero_close_record (seq 0 required_days).

(** The session loaded from that file: it has exactly [required_days] rows,
    so the window can only start at 0, and the row at the cursor (64) is the
    one that closes at 0. *)
Definition zero_close_start : simulator :=
  _start_simulation zero_close_file (fun lo _ => lo) init_simulator.

(** A buy at price 0 followed by a sell at 10. *)
Definition zero_entry_log : list trade :=
  [mk_trade (mk_date 2005 5 1) buy (inject_Z 0 / 100)%Q PInf NaN;
   mk_trade (mk_date 2005 6 1) sell (inject_Z 1000 / 100)%Q (Fin 0) NaN].

(** ** [_update_chart] and [_update_info], up to the drawing *)

Definition MA_PERIODS : list nat := [5; 10; 20; 60; 120; 250]%nat.
Definition MA_COLORS : list string :=
  ["#1f77b4"; "#ff7f0e"; "#2ca02c"; "#d62728"; "#9467bd"; "#8c564b"]%string.

(** A bound of a Python slice on a sequence of length [len]: a negative
    bound counts from the end, and every bound is clipped to the sequence. *)
Definition clip (k : Z) (len : nat) : nat :=
  if k <? 0 then Z.to_nat (Z.max 0 (k + Z.of_nat len))
  else Nat.min (Z.to_nat k) len.

(** [frame.iloc[start:stop]]. *)
Definition iloc_slice {A : Type} (frame : list A) (start stop : Z) : list A :=
  slice frame (clip start (List.length frame)) (clip stop (List.length frame)).

Definition Qsum (xs : list Q) : Q := fold_right Qplus 0%Q xs.

(** [series.rolling(period).mean()]: blank until [period] values are there,
    then the mean of the last [period] values. *)
Definition rolling_mean (period : nat) (xs : list Q) : list (option Q) :=
  map (fun i =>
         if (i + 1 <? period)%nat then None
         else Some (Qsum (slice xs (i + 1 - period) (i + 1))
                    / inject_Z (Z.of_nat period))%Q)
      (seq 0 (List.length xs)).

(** The price of the row labelled [date] in a signal frame, if any. *)
Definition signal_at (frame : list (datetime * Q)) (date : datetime) : option Q :=
  match find (fun row => date_eqb (fst row) date) frame with
  | Some row => Some (snd row)
  | None => None
  end.

(** [frame['Price'].reindex(index)]: one entry per label of [index], blank
    where the frame has no row with that label. *)
Definition reindex (frame : list (datetime * Q)) (index : list datetime)
  : list (option Q) :=
  map (signal_at frame) index.

(** What [_update_chart] hands to the plotting call: the window of rows,
    one moving average per period that is drawn (with its colour), and the
    two marker series, each present only when its frame is not empty. *)
Record chart : Type := mk_chart {
  plot_data : list bar;
  ma_plots : list (nat * string * list (option Q));
  buy_plot : option (list (option Q));
  sell_plot : option (list (option Q))
}.

Definition _update_chart (self : simulator) : chart :=
  let plot_data :=
    iloc_slice (current_data self)
               (Z.of_nat (current_index self) - 64)
               (Z.of_nat (current_index self) + 1) in
  let index := map Date plot_data in
  mk_chart
    plot_data
    (map (fun pc => (fst pc, snd pc, rolling_mean (fst pc) (map Close plot_data)))
         (filter (fun pc => (fst pc <? List.length plot_data)%nat)
                 (combine MA_PERIODS MA_COLORS)))
    (match buy_signals self with
     | [] => None
     | _ :: _ => Some (reindex (buy_signals self) index)
     end)
    (match sell_signals self with
     | [] => None
     | _ :: _ => Some (reindex (sell_signals self) index)
     end).

(** The values that [_update_info] formats into the info line; [None] is
    the [IndexError] of [iloc] when the cursor is outside the frame. *)
Record info : Type := mk_info {
  info_date : datetime;
  info_open : Q;
  info_close : Q;
  info_position : num;
  info_cash : num;
  info_total : num
}.

Definition _update_info (self : simulator) : option info :=
  match nth_error (current_data self) (current_index self) with
  | None => None
  | Some current =>
      Some (mk_info (Date current) (Open current) (Close current)
                    (position self) (cash self)
                    (equity self (Close current)))
  end.

(** ** Further predicates of the statements *)

(** A price field as the decoder produces it: a 32-bit unsigned integer
    over 100. *)
Definition cents_u32 (q : Q) : Prop :=
  exists k : Z, 0 <= k < 4294967296 /\ q = (inject_Z k / 100)%Q.

(** The text of a one-digit month followed by a one-digit day, and the test
    that the pattern [%m%d] reads it as that month and day. *)
Definition md1_text (m d : Z) : list ascii := [digit_char m; digit_char d].

Definition md1_first_ok (m d : Z) : bool :=
  match re_md (md1_text m d) with
  | (m', d', []) :: _ => (m' =? m) && (d' =? d)
  | _ => false
  end.

Definition is_sell (t : trade) : bool :=
  match trade_action t with sell => true | _ => false end.

(** What every click keeps, from the start of a session on. *)
Definition ledger_shape (s : simulator) : Prop :=
  List.length (equity_curve s) = S (List.length (trade_log s))
  /\ current_index s = (64 + List.length (trade_log s))%nat
  /\ (current_index s <= Nat.max 64 (List.length (current_data s) - 1))%nat.

(** A buffer of one record whose fields are all zero. *)
Definition zero_record : list byte := repeat x00 32.

(** The frame decoded from the file with one zero record. *)
Definition zero_close_frame : list bar :=
  match read_day_file zero_close_file with
  | Some frame => frame
  | None => []
  end.

(* ================================================================== *)
(** * Part II.  Properties                                            *)
(* ================================================================== *)

(** ** The decoder *)

Section Decoder.

Variable buffer : list byte.

Lemma slice_length (i : nat) :
  ((i + 1) * 32 <= List.length buffer)%nat ->
  List.length (slice buffer (i * 32) ((i + 1) * 32)) = 32%nat.
Proof.
  intros H. unfold slice.
  rewrite length_firstn, length_skipn. lia.
Qed.

Lemma slice_nth (i k : nat) :
  (k < 32)%nat ->
  nth k (slice buffer (i * 32) ((i + 1) * 32)) x00 = nth (32 * i + k) buffer x00.
Proof.
  intros H. unfold slice.
  rewrite nth_firstn.
  replace (k <? (i + 1) * 32 - i * 32)%nat with true
    by (symmetry; apply Nat.ltb_lt; lia).
  rewrite nth_skipn. f_equal. lia.
Qed.

Lemma slice_u32 (i k : nat) :
  (k + 3 < 32)%nat ->
  u32_at (slice buffer (i * 32) ((i + 1) * 32)) k = u32_at buffer (32 * i + k).
Proof.
  intros H. unfold u32_at.
  rewrite !slice_nth by lia.
  rewrite !Nat.add_assoc. reflexivity.
Qed.

Lemma read_record_bar_at (data : list bar) (i : nat) :
  ((i + 1) * 32 <= List.length buffer)%nat ->
  read_record buffer (Some data) i =
  match bar_at buffer i with
  | Some b => Some (data ++ [b])
  | None => None
  end.
Proof.
  intros H. unfold read_record, struct_unpack, bar_at.
  rewrite slice_length by exact H. cbn [Nat.eqb raw0 raw1 raw2 raw3 raw4 raw6].
  change (u32_at (slice buffer (i * 32) ((i + 1) * 32)) 0)
    with (u32_at (slice buffer (i * 32) ((i + 1) * 32)) (0 + 0)).
  rewrite !slice_u32 by lia.
  replace (32 * i + (0 + 0))%nat with (32 * i)%nat by lia.
  destruct (strptime_Ymd _); reflexivity.
Qed.

Lemma read_record_None (range : list nat) :
  fold_left (read_record buffer) range None = None.
Proof. induction range as [|i range IH]; [reflexivity | exact IH]. Qed.

(** The loop is the record-by-record decoding of the complete records. *)
Lemma read_loop (n k : nat) (data : list bar) :
  ((k + n) * 32 <= List.length buffer)%nat ->
  fold_left (read_record buffer) (seq k n) (Some data) =
  match all_some (map (bar_at buffer) (seq k n)) with
  | Some rows => Some (data ++ rows)
  | None => None
  end.
Proof.
  revert k data. induction n as [|n IH]; intros k data H.
  - cbn. now rewrite app_nil_r.
  - cbn [seq fold_left map all_some].
    rewrite read_record_bar_at by lia.
    destruct (bar_at buffer k) as [b|].
    + rewrite IH by lia.
      destruct (all_some _); [now rewrite <- app_assoc | reflexivity].
    + apply read_record_None.
Qed.

Lemma read_day_file_rows :
  read_day_file buffer =
  all_some (map (bar_at buffer) (seq 0 (List.length buffer / 32))).
Proof.
  unfold read_day_file. cbv zeta.
  rewrite read_loop.
  - destruct (all_some _); reflexivity.
  - pose proof (Nat.Div0.mul_div_le (List.length buffer) 32). lia.
Qed.

End Decoder.

Lemma all_some_length {A : Type} (l : list (option A)) (r : list A) :
  all_some l = Some r -> List.length r = List.length l.
Proof.
  revert r. induction l as [|[a|] l IH]; cbn; intros r H; try discriminate.
  - now inversion H.
  - destruct (all_some l) as [r'|]; [|discriminate].
    inversion H; subst. cbn. f_equal. now apply IH.
Qed.

Lemma all_some_nth {A : Type} (l : list (option A)) (r : list A) (i : nat) :
  all_some l = Some r -> (i < List.length l)%nat ->
  exists a, nth_error l i = Some (Some a) /\ nth_error r i = Some a.
Proof.
  revert r i. induction l as [|[a|] l IH]; cbn; intros r i H Hi; try discriminate.
  - lia.
  - destruct (all_some l) as [r'|]; [|discriminate].
    inversion H; subst. destruct i as [|i]; cbn.
    + now exists a.
    + apply IH; [reflexivity | lia].
Qed.

Lemma all_some_None {A : Type} (l : list (option A)) :
  all_some l = None -> exists i, (i < List.length l)%nat /\ nth_error l i = Some None.
Proof.
  induction l as [|[a|] l IH]; cbn; intros H; try discriminate.
  - destruct (all_some l); [discriminate|].
    destruct (IH eq_refl) as (i & Hi & E). exists (S i). split; [lia | exact E].
  - exists 0%nat. split; [lia | reflexivity].
Qed.

Lemma nth_error_map_seq {A : Type} (f : nat -> A) (n i : nat) :
  (i < n)%nat -> nth_error (map f (seq 0 n)) i = Some (f i).
Proof.
  intros H. rewrite nth_error_map, nth_error_seq.
  replace (i <? n)%nat with true by (symmetry; apply Nat.ltb_lt; lia).
  reflexivity.
Qed.

(** ** Dates *)

Lemma digit_cases (k : Z) :
  0 <= k <= 9 ->
  k = 0 \/ k = 1 \/ k = 2 \/ k = 3 \/ k = 4 \/ k = 5 \/ k = 6 \/ k = 7 \/ k = 8 \/ k = 9.
Proof. lia. Qed.

Lemma in_range_digit (k : Z) :
  0 <= k <= 9 -> in_range "0" "9" (digit_char k) = true.
Proof.
  intros H. destruct (digit_cases k H) as [E|[E|[E|[E|[E|[E|[E|[E|[E|E]]]]]]]]];
    subst k; reflexivity.
Qed.

Lemma digit_val_char (k : Z) :
  0 <= k <= 9 -> digit_val (digit_char k) = k.
Proof.
  intros H. destruct (digit_cases k H) as [E|[E|[E|[E|[E|[E|[E|[E|[E|E]]]]]]]]];
    subst k; reflexivity.
Qed.

(** One step of the conversion to decimal: the last digit is split off. *)
Lemma str_int_aux_step (fuel : nat) (q r : Z) (acc : list ascii) :
  0 < q -> 0 <= r <= 9 ->
  str_int_aux (S fuel) (10 * q + r) acc = str_int_aux fuel q (digit_char r :: acc).
Proof.
  intros Hq Hr. cbn [str_int_aux].
  replace (10 * q + r <? 10) with false by (symmetry; apply Z.ltb_ge; lia).
  replace ((10 * q + r) / 10) with q by (Z.div_mod_to_equations; lia).
  replace ((10 * q + r) mod 10) with r by (Z.div_mod_to_equations; lia).
  reflexivity.
Qed.

Lemma str_int_aux_last (fuel : nat) (q : Z) (acc : list ascii) :
  q <= 9 -> str_int_aux (S fuel) q acc = digit_char q :: acc.
Proof.
  intros Hq. cbn [str_int_aux].
  replace (q <? 10) with true by (symmetry; apply Z.ltb_lt; lia).
  reflexivity.
Qed.

(** The text of an eight-digit number. *)
Lemma str_int_8 (a b c d e f g h : Z) :
  1 <= a <= 9 -> 0 <= b <= 9 -> 0 <= c <= 9 -> 0 <= d <= 9 ->
  0 <= e <= 9 -> 0 <= f <= 9 -> 0 <= g <= 9 -> 0 <= h <= 9 ->
  str_int (10 * (10 * (10 * (10 * (10 * (10 * (10 * a + b) + c) + d) + e) + f) + g) + h)
  = map digit_char [a; b; c; d; e; f; g; h].
Proof.
  intros. unfold str_int.
  rewrite !str_int_aux_step by lia.
  rewrite str_int_aux_last by lia.
  reflexivity.
Qed.

Lemma md_table :
  forallb (fun m => forallb (md_first_ok m) (Z_range 1 31)) (Z_range 1 12) = true.
Proof. vm_compute. reflexivity. Qed.

Lemma Z_range_In (lo : Z) (n : nat) (k : Z) :
  lo <= k < lo + Z.of_nat n -> In k (Z_range lo n).
Proof.
  intros H. unfold Z_range. apply in_map_iff.
  exists (Z.to_nat (k - lo)). split; [lia | apply in_seq; lia].
Qed.

Lemma md_first (m d : Z) :
  1 <= m <= 12 -> 1 <= d <= 31 -> md_first_ok m d = true.
Proof.
  intros Hm Hd. pose proof md_table as T.
  rewrite forallb_forall in T.
  specialize (T m (Z_range_In 1 12 m ltac:(lia))).
  rewrite forallb_forall in T.
  apply T, Z_range_In. lia.
Qed.

Lemma days_in_month_le (y m : Z) : days_in_month y m <= 31.
Proof.
  unfold days_in_month.
  destruct (m =? 2); [destruct (is_leap y); lia|].
  destruct ((m =? 4) || (m =? 6) || (m =? 9) || (m =? 11)); lia.
Qed.

Lemma valid_date_bounds (y m d : Z) :
  valid_date y m d = true ->
  1 <= y <= 9999 /\ 1 <= m <= 12 /\ 1 <= d <= 31.
Proof.
  unfold valid_date. rewrite !andb_true_iff, !Z.leb_le.
  pose proof (days_in_month_le y m). lia.
Qed.

(** An eight-digit number YYYYMMDD that names a calendar day is read as
    that day. *)
Lemma strptime_YYYYMMDD (y m d : Z) :
  1000 <= y -> valid_date y m d = true ->
  strptime_Ymd (str_int (y * 10000 + m * 100 + d)) = Some (mk_date y m d).
Proof.
  intros Hy V. destruct (valid_date_bounds _ _ _ V) as (By & Bm & Bd).
  set (a := y / 1000). set (b := y / 100 mod 10).
  set (c := y / 10 mod 10). set (e := y mod 10).
  assert (Hn : y * 10000 + m * 100 + d =
               10 * (10 * (10 * (10 * (10 * (10 * (10 * a + b) + c) + e)
                 + m / 10) + m mod 10) + d / 10) + d mod 10)
    by (subst a b c e; Z.div_mod_to_equations; lia).
  assert (Ha : 1 <= a <= 9) by (subst a; Z.div_mod_to_equations; lia).
  assert (Hb : 0 <= b <= 9) by (subst b; Z.div_mod_to_equations; lia).
  assert (Hc : 0 <= c <= 9) by (subst c; Z.div_mod_to_equations; lia).
  assert (He : 0 <= e <= 9) by (subst e; Z.div_mod_to_equations; lia).
  assert (Hyv : 1000 * a + 100 * b + 10 * c + e = y)
    by (subst a b c e; Z.div_mod_to_equations; lia).
  rewrite Hn, str_int_8 by (try assumption; Z.div_mod_to_equations; lia).
  pose proof (md_first m d Bm Bd) as F. unfold md_first_ok, md_text in F.
  unfold strptime_Ymd, re_Ymd, re_Y. cbn [map].
  rewrite !in_range_digit, !digit_val_char by lia.
  cbn [andb flat_map fst snd]. rewrite app_nil_r, Hyv.
  destruct (re_md _) as [|[[m' d'] [|x rest]] tl]; try discriminate.
  apply andb_true_iff in F. destruct F as [Em Ed].
  apply Z.eqb_eq in Em, Ed. subst m' d'.
  cbn [map fst snd]. now rewrite V.
Qed.

(** ** The record layout *)

Lemma bar_at_firstn (buffer : list byte) (n i : nat) :
  (i < n)%nat -> bar_at (firstn (32 * n) buffer) i = bar_at buffer i.
Proof.
  intros H.
  assert (U : forall k, (k + 3 < 32)%nat ->
            u32_at (firstn (32 * n) buffer) (32 * i + k) = u32_at buffer (32 * i + k)).
  { intros k Hk. unfold u32_at. rewrite !nth_firstn.
    repeat match goal with
           | |- context [(?a <? ?b)%nat] =>
               replace (a <? b)%nat with true by (symmetry; apply Nat.ltb_lt; lia)
           end.
    reflexivity. }
  unfold bar_at.
  replace (32 * i)%nat with (32 * i + 0)%nat at 1 by lia.
  rewrite !U by lia. now rewrite Nat.add_0_r.
Qed.

(** C1.  In a buffer of [n] complete records, the call succeeds exactly with
    the [n] rows whose fields sit at these offsets of record [i]: the date
    at 0, open, high, low and close (each divided by 100) at 4, 8, 12 and
    16, the volume at 24; the float at 20 and the integer at 28 are not
    used.  The date field is the decimal text of the integer read with
    [%Y%m%d]; an eight-digit YYYYMMDD number that names a calendar day
    gives that day. *)
Theorem read_day_file_layout (buffer : list byte) (n : nat) :
  List.length buffer = (32 * n)%nat ->
  (forall bars : list bar,
     read_day_file buffer = Some bars <->
     (List.length bars = n /\
      forall i : nat, (i < n)%nat ->
        exists date : datetime,
          strptime_Ymd (str_int (u32_at buffer (32 * i))) = Some date /\
          nth_error bars i =
          Some (mk_bar date
                       (inject_Z (u32_at buffer (32 * i + 4)) / 100)%Q
                       (inject_Z (u32_at buffer (32 * i + 8)) / 100)%Q
                       (inject_Z (u32_at buffer (32 * i + 12)) / 100)%Q
                       (inject_Z (u32_at buffer (32 * i + 16)) / 100)%Q
                       (u32_at buffer (32 * i + 24)))))
  /\
  (forall (i : nat) (y m d : Z),
     (i < n)%nat -> 1000 <= y -> valid_date y m d = true ->
     u32_at buffer (32 * i) = y * 10000 + m * 100 + d ->
     strptime_Ymd (str_int (u32_at buffer (32 * i))) = Some (mk_date y m d)).
Proof.
  intros L. split.
  - intros bars. rewrite read_day_file_rows, L.
    replace (32 * n / 32)%nat with n by (rewrite Nat.mul_comm, Nat.div_mul; lia).
    split.
    + intros H. split.
      * apply all_some_length in H. now rewrite length_map, length_seq in H.
      * intros i Hi.
        destruct (all_some_nth _ _ i H) as (b & E1 & E2).
        { now rewrite length_map, length_seq. }
        rewrite nth_error_map_seq in E1 by exact Hi.
        injection E1 as E1. unfold bar_at in E1.
        destruct (strptime_Ymd _) as [date|]; [|discriminate].
        exists date. split; [reflexivity|].
        injection E1 as E1. now rewrite E2, <- E1.
    + intros [Hlen Hrows].
      destruct (all_some (map (bar_at buffer) (seq 0 n))) as [rows|] eqn:E.
      * f_equal. apply nth_error_ext. intros i.
        pose proof (all_some_length _ _ E) as Lr.
        rewrite length_map, length_seq in Lr.
        destruct (Nat.lt_ge_cases i n) as [Hi|Hi].
        -- destruct (all_some_nth _ _ i E) as (b & E1 & E2).
           { now rewrite length_map, length_seq. }
           rewrite nth_error_map_seq in E1 by exact Hi.
           injection E1 as E1. unfold bar_at in E1.
           destruct (Hrows i Hi) as (date & Hd & Hb).
           rewrite Hd in E1. injection E1 as E1.
           rewrite E2, Hb, <- E1. reflexivity.
        -- transitivity (@None bar); [|symmetry]; apply nth_error_None; lia.
      * exfalso. apply all_some_None in E. destruct E as (i & Hi & E).
        rewrite length_map, length_seq in Hi.
        rewrite nth_error_map_seq in E by exact Hi.
        injection E as E. unfold bar_at in E.
        destruct (Hrows i Hi) as (date & Hd & _).
        rewrite Hd in E. discriminate.
  - intros i y m d _ Hy V E. rewrite E. now apply strptime_YYYYMMDD.
Qed.

Lemma read_day_file_layout_witness : read_day_file sample_buffer = Some sample_bars.
Proof.
  apply (proj1 (read_day_file_layout sample_buffer 2 eq_refl) sample_bars).
  split; [reflexivity|].
  intros [|[|i]] Hi.
  - exists (mk_date 2023 1 3). split; reflexivity.
  - exists (mk_date 2023 1 4). split; reflexivity.
  - exfalso. lia.
Defined.

(** ** Trailing bytes *)

(** C6.  A buffer of any length decodes to the same result as its longest
    prefix of complete 32-byte records; the bytes after it are never read.
    The call fails only when the date of a complete record cannot be read,
    and a result has one row per complete record. *)
Theorem read_day_file_partial_record (buffer : list byte) :
  read_day_file buffer =
    read_day_file (firstn (32 * (List.length buffer / 32)) buffer)
  /\ (read_day_file buffer = None ->
      exists i : nat, (i < List.length buffer / 32)%nat /\
        strptime_Ymd (str_int (u32_at buffer (32 * i))) = None)
  /\ (forall bars : list bar, read_day_file buffer = Some bars ->
      List.length bars = (List.length buffer / 32)%nat).
Proof.
  set (n := (List.length buffer / 32)%nat).
  assert (Hn : (32 * n <= List.length buffer)%nat)
    by (apply Nat.Div0.mul_div_le).
  split; [|split].
  - rewrite (read_day_file_rows buffer), (read_day_file_rows (firstn _ _)).
    rewrite firstn_length_le by exact Hn.
    replace (32 * n / 32)%nat with n by (rewrite Nat.mul_comm, Nat.div_mul; lia).
    fold n. f_equal. apply map_ext_in. intros i Hi. apply in_seq in Hi.
    symmetry. apply bar_at_firstn. lia.
  - rewrite read_day_file_rows. fold n. intros E.
    apply all_some_None in E. destruct E as (i & Hi & E).
    rewrite length_map, length_seq in Hi.
    rewrite nth_error_map_seq in E by exact Hi.
    exists i. split; [exact Hi|].
    injection E as E. unfold bar_at in E.
    destruct (strptime_Ymd _); [discriminate | reflexivity].
  - intros bars. rewrite read_day_file_rows. fold n. intros E.
    apply all_some_length in E. now rewrite length_map, length_seq in E.
Qed.

Lemma read_day_file_partial_record_witness :
  read_day_file (sample_buffer ++ [x01; x02; x03]) = Some sample_bars.
Proof.
  rewrite (proj1 (read_day_file_partial_record (sample_buffer ++ [x01; x02; x03]))).
  reflexivity.
Defined.

(** ** The trading ledger *)

Lemma Qlt_bool_iff (x y : Q) : Qlt_bool x y = true <-> (x < y)%Q.
Proof.
  unfold Qlt_bool. rewrite negb_true_iff. split.
  - intros H. apply Qnot_le_lt. intros L.
    apply Qle_bool_iff in L. congruence.
  - intros H. destruct (Qle_bool y x) eqn:E; [|reflexivity].
    apply Qle_bool_iff in E. exfalso. apply (Qlt_not_le _ _ H E).
Qed.

Lemma Qlt_bool_false (x y : Q) : Qlt_bool x y = false <-> (y <= x)%Q.
Proof.
  unfold Qlt_bool. rewrite negb_false_iff. apply Qle_bool_iff.
Qed.

Lemma at_end_false (self : simulator) :
  at_end self = false <->
  Z.of_nat (current_index self) < Z.of_nat (List.length (current_data self)) - 1.
Proof. unfold at_end. rewrite Z.geb_leb, Z.leb_gt. reflexivity. Qed.

(** Before the last row there is a current row. *)
Lemma current_bar_exists (self : simulator) :
  at_end self = false ->
  exists b, nth_error (current_data self) (current_index self) = Some b.
Proof.
  intros H. apply at_end_false in H.
  destruct (nth_error (current_data self) (current_index self)) as [b|] eqn:E.
  - now exists b.
  - apply nth_error_None in E. lia.
Qed.

Section TradeSteps.

Variable self : simulator.
Variable b : bar.
Hypothesis current : nth_error (current_data self) (current_index self) = Some b.

(** The three paths of the [try] block, each as one update of the object. *)
Lemma trade_steps_buy :
  trade_steps buy self =
  if num_gt (position self) (Fin 0) then (Raise ValueError_sell_first, self)
  else
    let max_shares := floor_divide (cash self) (Close b) in
    if num_lt max_shares (Fin 1) then (Raise ValueError_no_cash, self)
    else
      let cash' := num_sub (cash self) (num_mul max_shares (Fin (Close b))) in
      (Ok tt,
       mk_sim (current_data self) (current_index self + 1) cash' max_shares
              (trade_log self ++ [mk_trade (Date b) buy (Close b) max_shares cash'])
              (equity_curve self ++ [num_add cash' (num_mul max_shares (Fin (Close b)))])
              (loc_set (buy_signals self) (Date b) (Close b))
              (sell_signals self)).
Proof.
  unfold trade_steps, bind, get, iloc. rewrite current.
  cbn -[num_gt num_lt floor_divide num_sub num_mul num_add].
  destruct (num_gt (position self) (Fin 0)); [reflexivity|].
  destruct (num_lt _ _); reflexivity.
Qed.

Lemma trade_steps_sell :
  trade_steps sell self =
  if num_eq (position self) (Fin 0) then (Raise ValueError_no_position, self)
  else
    let cash' := num_add (cash self) (num_mul (position self) (Fin (Close b))) in
    (Ok tt,
     mk_sim (current_data self) (current_index self + 1) cash' (Fin 0)
            (trade_log self ++ [mk_trade (Date b) sell (Close b) (Fin 0) cash'])
            (equity_curve self ++ [num_add cash' (num_mul (Fin 0) (Fin (Close b)))])
            (buy_signals self)
            (loc_set (sell_signals self) (Date b) (Close b))).
Proof.
  unfold trade_steps, bind, get, iloc. rewrite current.
  cbn -[num_eq num_mul num_add].
  destruct (num_eq (position self) (Fin 0)); reflexivity.
Qed.

Lemma trade_steps_hold :
  trade_steps hold self =
  (Ok tt,
   mk_sim (current_data self) (current_index self + 1) (cash self) (position self)
          (trade_log self ++ [mk_trade (Date b) hold (Close b) (Fin 0) (cash self)])
          (equity_curve self ++ [equity self (Close b)])
          (buy_signals self) (sell_signals self)).
Proof.
  unfold trade_steps, bind, get, iloc. rewrite current. reflexivity.
Qed.

End TradeSteps.

(** An exception leaves the object as it was: every [raise] of the [try]
    block comes before the first assignment. *)
Lemma trade_steps_raise (act : action) (self self' : simulator) (e : error) :
  trade_steps act self = (Raise e, self') -> self' = self.
Proof.
  destruct (nth_error (current_data self) (current_index self)) as [b|] eqn:E.
  - destruct act.
    + rewrite (trade_steps_buy self b E).
      destruct (num_gt _ _); [now intros [= _ <-]|].
      cbv zeta. destruct (num_lt _ _); [now intros [= _ <-] | discriminate].
    + rewrite (trade_steps_sell self b E).
      destruct (num_eq _ _); [now intros [= _ <-] | discriminate].
    + rewrite (trade_steps_hold self b E). discriminate.
  - unfold trade_steps, bind, get, iloc. rewrite E. cbn. now intros [= _ <-].
Qed.

(** C5.  A click that is turned down leaves the whole object as it was, and
    each of the four situations is turned down: the cursor on the last row
    (any action), a buy while shares are held, a buy when the cash buys less
    than one share at the current close, a sell with no shares. *)
Theorem rejected_action_keeps_state (act : action) (self : simulator) :
  (forall (o : outcome) (self' : simulator),
     _execute_trade act self = (o, self') -> o <> Executed -> self' = self)
  /\ (at_end self = true -> _execute_trade act self = (EndOfData, self))
  /\ (at_end self = false -> num_gt (position self) (Fin 0) = true ->
      _execute_trade buy self = (TradeFailed ValueError_sell_first, self))
  /\ (forall (b : bar) (c : Q),
        at_end self = false ->
        nth_error (current_data self) (current_index self) = Some b ->
        cash self = Fin c -> ~ (Close b == 0)%Q ->
        Qfloor (c / Close b) < 1 ->
        _execute_trade buy self =
        (TradeFailed (if num_gt (position self) (Fin 0)
                      then ValueError_sell_first else ValueError_no_cash), self))
  /\ (at_end self = false -> num_eq (position self) (Fin 0) = true ->
      _execute_trade sell self = (TradeFailed ValueError_no_position, self)).
Proof.
  repeat split.
  - intros o self'. unfold _execute_trade.
    destruct (at_end self); [now intros [= <- <-]|].
    destruct (trade_steps act self) as [[u|e] s] eqn:E.
    + intros [= <- _] N. now elim N.
    + intros [= _ <-] _. now apply trade_steps_raise in E.
  - intros H. unfold _execute_trade. now rewrite H.
  - intros H P. unfold _execute_trade. rewrite H.
    destruct (current_bar_exists self H) as (b & E).
    now rewrite (trade_steps_buy self b E), P.
  - intros b c H E C Nz F. unfold _execute_trade. rewrite H.
    rewrite (trade_steps_buy self b E).
    destruct (num_gt (position self) (Fin 0)); [reflexivity|]. cbv zeta.
    unfold floor_divide. rewrite C.
    destruct (Qeq_bool (Close b) 0) eqn:Z0.
    { apply Qeq_bool_iff in Z0. contradiction. }
    replace (num_lt (Fin (inject_Z (Qfloor (c / Close b)))) (Fin 1)) with true;
      [reflexivity|].
    symmetry. cbn. apply Qlt_bool_iff.
    rewrite <- (Zlt_Qlt _ 1). exact F.
  - intros H P. unfold _execute_trade. rewrite H.
    destruct (current_bar_exists self H) as (b & E).
    now rewrite (trade_steps_sell self b E), P.
Qed.

Lemma rejected_action_keeps_state_witness :
  _execute_trade buy sample_holding
  = (TradeFailed ValueError_sell_first, sample_holding).
Proof.
  apply (proj1 (proj2 (proj2 (rejected_action_keeps_state buy sample_holding))));
    reflexivity.
Defined.

Lemma num_eq_zero (a : num) :
  num_eq a (Fin 0) = true -> exists q, a = Fin q /\ (q == 0)%Q.
Proof.
  destruct a as [q| | |]; cbn; try discriminate.
  intros H. exists q. split; [reflexivity | now apply Qeq_bool_iff].
Qed.

(** An accepted click went through the [try] block without an exception. *)
Lemma executed_inv (act : action) (self self' : simulator) :
  _execute_trade act self = (Executed, self') ->
  at_end self = false /\ trade_steps act self = (Ok tt, self').
Proof.
  unfold _execute_trade. destruct (at_end self); [discriminate|].
  destruct (trade_steps act self) as [[[]|e] s]; [|discriminate].
  now intros [= <-].
Qed.

Lemma at_end_set_current_data (self : simulator) (data' : list bar) :
  List.length data' = List.length (current_data self) ->
  at_end (set_current_data self data') = at_end self.
Proof. intros L. unfold at_end. cbn. now rewrite L. Qed.

(** C7.  An accepted action reads one row of the frame, the one at the
    cursor: its date and close are what the trade record, the signal and the
    equity value are made of, and with any other frame of the same length
    that has this row at the cursor, the action has the same effect. *)
Theorem trade_uses_current_bar (act : action) (self self' : simulator) :
  _execute_trade act self = (Executed, self') ->
  exists (b : bar) (r : trade),
    nth_error (current_data self) (current_index self) = Some b /\
    trade_log self' = trade_log self ++ [r] /\
    trade_action r = act /\
    trade_date r = Date b /\
    trade_price r = Close b /\
    equity_curve self' = equity_curve self ++ [equity self' (Close b)] /\
    (act = buy ->
     buy_signals self' = loc_set (buy_signals self) (Date b) (Close b)) /\
    (act = sell ->
     sell_signals self' = loc_set (sell_signals self) (Date b) (Close b)) /\
    current_index self' = (current_index self + 1)%nat /\
    (forall data' : list bar,
       List.length data' = List.length (current_data self) ->
       nth_error data' (current_index self) = Some b ->
       _execute_trade act (set_current_data self data') =
       (Executed, set_current_data self' data')).
Proof.
  intros X. destruct (executed_inv _ _ _ X) as [H T].
  destruct (current_bar_exists self H) as (b & E).
  exists b.
  assert (I : forall data', List.length data' = List.length (current_data self) ->
            nth_error data' (current_index self) = Some b ->
            forall s', trade_steps act self = (Ok tt, s') ->
            _execute_trade act (set_current_data self data')
            = (Executed, set_current_data s' data')).
  { intros data' L E' s'. unfold _execute_trade.
    rewrite (at_end_set_current_data self data' L), H.
    destruct act.
    - rewrite (trade_steps_buy self b E),
        (trade_steps_buy (set_current_data self data') b E').
      cbn [position cash set_current_data].
      destruct (num_gt _ _); [discriminate|]. cbv zeta.
      destruct (num_lt _ _); [discriminate|]. now intros [= <-].
    - rewrite (trade_steps_sell self b E),
        (trade_steps_sell (set_current_data self data') b E').
      cbn [position cash set_current_data].
      destruct (num_eq _ _); [discriminate|]. now intros [= <-].
    - rewrite (trade_steps_hold self b E),
        (trade_steps_hold (set_current_data self data') b E').
      now intros [= <-]. }
  destruct act.
  - rewrite (trade_steps_buy self b E) in T.
    destruct (num_gt (position self) (Fin 0)) eqn:G; [discriminate|].
    cbv zeta in T.
    destruct (num_lt (floor_divide (cash self) (Close b)) (Fin 1)) eqn:F;
      [discriminate|].
    injection T as <-.
    eexists. repeat split; try reflexivity; try exact E; try (intros [=]).
    intros data' L E'. apply (I data' L E').
    rewrite (trade_steps_buy self b E), G. cbv zeta. now rewrite F.
  - rewrite (trade_steps_sell self b E) in T.
    destruct (num_eq (position self) (Fin 0)) eqn:P; [discriminate|].
    injection T as <-.
    eexists. repeat split; try reflexivity; try exact E; try (intros [=]).
    intros data' L E'. apply (I data' L E').
    now rewrite (trade_steps_sell self b E), P.
  - rewrite (trade_steps_hold self b E) in T. injection T as <-.
    eexists. repeat split; try reflexivity; try exact E; try (intros [=]).
    intros data' L E'. apply (I data' L E').
    now rewrite (trade_steps_hold self b E).
Qed.

Lemma trade_uses_current_bar_witness :
  exists r : trade,
    trade_log (snd (_execute_trade buy sample_start)) = [r] /\
    trade_date r = mk_date 2023 1 3 /\ trade_price r = (33333 # 100)%Q.
Proof.
  destruct (trade_uses_current_bar buy sample_start
              (snd (_execute_trade buy sample_start)) eq_refl)
    as (b & r & E & L & _ & D & P & _).
  injection E as <-.
  exists r. repeat split; assumption.
Defined.

(** ** Trade records *)

(** C9, as the program has it.  The record of an accepted action carries the
    cash after the action.  Its share count is the position after the action
    for a buy and for a sell (which leaves none); for a hold it is 0,
    whatever is held. *)
Theorem trade_record_fields (act : action) (self self' : simulator) :
  _execute_trade act self = (Executed, self') ->
  exists r : trade,
    trade_log self' = trade_log self ++ [r] /\
    trade_cash r = cash self' /\
    trade_shares r = match act with buy => position self' | _ => Fin 0 end /\
    (act = sell -> position self' = Fin 0) /\
    (act = hold -> position self' = position self /\ cash self' = cash self).
Proof.
  intros X. destruct (executed_inv _ _ _ X) as [H T].
  destruct (current_bar_exists self H) as (b & E).
  destruct act.
  - rewrite (trade_steps_buy self b E) in T.
    destruct (num_gt _ _); [discriminate|]. cbv zeta in T.
    destruct (num_lt _ _); [discriminate|]. injection T as <-.
    eexists. repeat split; try reflexivity; discriminate.
  - rewrite (trade_steps_sell self b E) in T.
    destruct (num_eq _ _); [discriminate|]. injection T as <-.
    eexists. repeat split; try reflexivity; discriminate.
  - rewrite (trade_steps_hold self b E) in T. injection T as <-.
    eexists. repeat split; try reflexivity; discriminate.
Qed.

Lemma trade_record_fields_witness :
  exists r : trade,
    trade_log (snd (_execute_trade hold sample_holding)) =
      trade_log sample_holding ++ [r] /\
    trade_shares r = Fin 0.
Proof.
  destruct (trade_record_fields hold sample_holding
              (snd (_execute_trade hold sample_holding)) eq_refl)
    as (r & L & _ & S & _).
  exists r. split; assumption.
Defined.

(** C9 as worded does not hold for a hold: after one buy of 300 shares a
    hold is accepted, the 300 shares are still held, and the record of the
    hold says 0 shares. *)
Lemma hold_record_shares_differ :
  fst (_execute_trade hold sample_holding) = Executed /\
  position (snd (_execute_trade hold sample_holding)) = Fin (inject_Z 300) /\
  exists r : trade,
    trade_log (snd (_execute_trade hold sample_holding)) =
      trade_log sample_holding ++ [r] /\
    trade_action r = hold /\
    trade_shares r = Fin 0 /\
    trade_shares r <> position (snd (_execute_trade hold sample_holding)) /\
    num_eq (trade_shares r) (position (snd (_execute_trade hold sample_holding)))
      = false.
Proof.
  split; [reflexivity|]. split; [reflexivity|].
  eexists. split; [reflexivity|].
  repeat split; try reflexivity. discriminate.
Qed.

(** ** Cash over a session *)

(** A buy at a row that closes at 0, with no shares and some cash: nothing
    is raised, the position becomes infinite and the cash not-a-number. *)
Lemma buy_at_zero_close (self : simulator) (b : bar) (c : Q) :
  at_end self = false ->
  nth_error (current_data self) (current_index self) = Some b ->
  (Close b == 0)%Q ->
  num_eq (position self) (Fin 0) = true ->
  cash self = Fin c -> (0 < c)%Q ->
  fst (_execute_trade buy self) = Executed
  /\ position (snd (_execute_trade buy self)) = PInf
  /\ cash (snd (_execute_trade buy self)) = NaN
  /\ current_index (snd (_execute_trade buy self)) = (current_index self + 1)%nat.
Proof.
  intros H E Z0 P C Hc.
  destruct (num_eq_zero _ P) as (q & Pq & Hq).
  unfold _execute_trade. rewrite H, (trade_steps_buy self b E), Pq, C.
  replace (num_gt (Fin q) (Fin 0)) with false
    by (symmetry; cbn; apply Qlt_bool_false; rewrite Hq; apply Qle_refl).
  cbv zeta. unfold floor_divide.
  replace (Qeq_bool (Close b) 0) with true by (symmetry; now apply Qeq_bool_iff).
  unfold scale_inf.
  replace (Qlt_bool 0 c) with true by (symmetry; now apply Qlt_bool_iff).
  cbn [num_lt num_gt fst snd position cash current_index num_mul num_sub num_neg].
  unfold scale_inf.
  replace (Qlt_bool 0 (Close b)) with false
    by (symmetry; apply Qlt_bool_false; rewrite Z0; apply Qle_refl).
  replace (Qlt_bool (Close b) 0) with false
    by (symmetry; apply Qlt_bool_false; rewrite Z0; apply Qle_refl).
  repeat split.
Qed.

(** C10, on the program.  At a row whose close is 0, a buy with no shares
    held is not turned down: the division gives infinity, the guard
    [max_shares < 1] is false, and the buy is carried out.  The position
    becomes infinite, the cash not-a-number, a record and an equity value
    are added and the cursor moves on. *)
Theorem zero_close_buy_executes :
  option_map Close (nth_error (current_data zero_close_start)
                              (current_index zero_close_start))
    = Some (inject_Z 0 / 100)%Q
  /\ position zero_close_start = Fin 0
  /\ cash zero_close_start = Fin (inject_Z INITIAL_CAPITAL)
  /\ fst (_execute_trade buy zero_close_start) = Executed
  /\ position (snd (_execute_trade buy zero_close_start)) = PInf
  /\ cash (snd (_execute_trade buy zero_close_start)) = NaN
  /\ current_index (snd (_execute_trade buy zero_close_start)) = 65%nat
  /\ trade_log (snd (_execute_trade buy zero_close_start))
     = [mk_trade (mk_date 2005 5 1) buy (inject_Z 0 / 100)%Q PInf NaN]
  /\ equity_curve (snd (_execute_trade buy zero_close_start))
     = [Fin (inject_Z INITIAL_CAPITAL); NaN].
Proof. vm_compute. repeat split; reflexivity. Qed.

(** C8, on the program.  From the state in which a session starts, one buy
    at a row that closes at 0 leaves cash that is not a number: it is not
    greater than or equal to 0. *)
Theorem zero_close_buy_cash :
  zero_close_start
    = _reset_trading_state (set_current_data init_simulator
                              (current_data zero_close_start))
  /\ cash zero_close_start = Fin (inject_Z INITIAL_CAPITAL)
  /\ cash (run [buy] zero_close_start) = NaN
  /\ num_ge (cash (run [buy] zero_close_start)) (Fin 0) = false
  /\ cash (run [buy; sell; hold; buy] zero_close_start) = NaN.
Proof. vm_compute. repeat split; reflexivity. Qed.

(** C2, on the program.  At the start of the session on the file whose
    row at the cursor closes at 0, no shares are held and the cursor is not
    on the last row.  The buy is carried out, and what it leaves does not
    conserve cash or equity: the position is infinite, the cash is
    not-a-number, cash plus position times the close is not-a-number where
    the cash before was 100000, and the equity at that close, 100000 before
    the buy, is not-a-number after it. *)
Theorem zero_close_buy_equity :
  at_end zero_close_start = false
  /\ num_eq (position zero_close_start) (Fin 0) = true
  /\ cash zero_close_start = Fin (inject_Z INITIAL_CAPITAL)
  /\ option_map Close (nth_error (current_data zero_close_start)
                                 (current_index zero_close_start))
     = Some (inject_Z 0 / 100)%Q
  /\ fst (_execute_trade buy zero_close_start) = Executed
  /\ position (snd (_execute_trade buy zero_close_start))
     = floor_divide (cash zero_close_start) (inject_Z 0 / 100)%Q
  /\ position (snd (_execute_trade buy zero_close_start)) = PInf
  /\ num_add (cash (snd (_execute_trade buy zero_close_start)))
             (num_mul (position (snd (_execute_trade buy zero_close_start)))
                      (Fin (inject_Z 0 / 100)%Q))
     = NaN
  /\ num_eq (num_add (cash (snd (_execute_trade buy zero_close_start)))
                     (num_mul (position (snd (_execute_trade buy zero_close_start)))
                              (Fin (inject_Z 0 / 100)%Q)))
            (cash zero_close_start)
     = false
  /\ num_eq (equity zero_close_start (inject_Z 0 / 100)%Q)
            (Fin (inject_Z INITIAL_CAPITAL))
     = true
  /\ equity (snd (_execute_trade buy zero_close_start)) (inject_Z 0 / 100)%Q = NaN
  /\ num_eq (equity (snd (_execute_trade buy zero_close_start)) (inject_Z 0 / 100)%Q)
            (equity zero_close_start (inject_Z 0 / 100)%Q)
     = false.
Proof. vm_compute. repeat split; reflexivity. Qed.

(** ** Win rate *)

Lemma truthy_nonzero (pending : option Q) :
  nonzero_entry pending ->
  truthy pending = match pending with Some _ => true | None => false end.
Proof.
  destruct pending as [p|]; cbn; [|reflexivity].
  intros H. destruct (Qeq_bool p 0) eqn:E; [|reflexivity].
  apply Qeq_bool_iff in E. contradiction.
Qed.

(** The loop counts the pairs and the wins among them, as long as no entry
    price is zero. *)
Lemma win_loop_pairs (log : list trade) (st : win_state) :
  nonzero_entry (last_buy_price st) -> nonzero_buys log ->
  win_trades (fold_left win_step log st)
    = win_trades st
      + Z.of_nat (List.length (filter is_win (paired_trades (last_buy_price st) log)))
  /\ total_trades (fold_left win_step log st)
    = total_trades st
      + Z.of_nat (List.length (paired_trades (last_buy_price st) log)).
Proof.
  revert st. induction log as [|t log IH]; intros st Hst Hlog.
  - cbn. lia.
  - inversion Hlog as [|? ? Ht Hrest]; subst.
    cbn [fold_left paired_trades]. unfold win_step at 2 4.
    destruct (trade_action t) eqn:A.
    + destruct (IH (mk_win (win_trades st) (total_trades st) (Some (trade_price t))))
        as [W T]; [exact (Ht eq_refl) | exact Hrest |].
      cbn [win_trades total_trades last_buy_price] in W, T. now rewrite W, T.
    + rewrite (truthy_nonzero _ Hst).
      destruct (last_buy_price st) as [entry|] eqn:Lp.
      * destruct (IH (mk_win (if Qlt_bool entry (trade_price t)
                              then win_trades st + 1 else win_trades st)
                             (total_trades st + 1) None))
          as [W T]; [exact I | exact Hrest |].
        cbn [win_trades total_trades last_buy_price] in W, T.
        rewrite W, T. cbn [filter List.length]. unfold is_win at 2. cbn [fst snd].
        destruct (Qlt_bool entry (trade_price t)); cbn [List.length]; lia.
      * destruct (IH st) as [W T]; [now rewrite Lp | exact Hrest |].
        rewrite Lp in W, T. now rewrite W, T.
    + now apply IH.
Qed.

(** When no buy of the log is at price zero, the win rate is the one the
    specification describes. *)
Lemma win_rate_paired (log : list trade) :
  nonzero_buys log -> win_rate log = spec_win_rate log.
Proof.
  intros H. unfold win_rate, spec_win_rate, win_loop.
  destruct (win_loop_pairs log (mk_win 0 0 None) I H) as [W T].
  cbn [win_trades total_trades last_buy_price] in W, T.
  rewrite W, T. cbn [Z.add].
  destruct (paired_trades None log) as [|pr prs]; [reflexivity|].
  replace (0 <? Z.of_nat (List.length (pr :: prs))) with true
    by (symmetry; apply Z.ltb_lt; cbn [List.length]; lia).
  reflexivity.
Qed.

Lemma win_rate_sample : (win_rate sample_log == 1 # 2)%Q.
Proof. reflexivity. Qed.

(** C3, on the program.  In the log [buy at 0, sell at 10] (the log of a
    buy and a sell over the file with the zero record) the sell follows an
    unconsumed buy and its price is greater: one pair, one win, rate 1.
    The loop tests the entry price for truth, a price of 0 is false, and
    the sell is not counted: no pair, rate 0. *)
Theorem win_rate_zero_entry :
  trade_log (run [buy; sell] zero_close_start) = zero_entry_log
  /\ map trade_action zero_entry_log = [buy; sell]
  /\ paired_trades None zero_entry_log
     = [((inject_Z 0 / 100)%Q, (inject_Z 1000 / 100)%Q)]
  /\ (spec_win_rate zero_entry_log == 1)%Q
  /\ total_trades (win_loop zero_entry_log) = 0
  /\ (win_rate zero_entry_log == 0)%Q.
Proof. vm_compute. repeat split; reflexivity. Qed.

(** ** Maximum drawdown *)

Lemma Qmax_if (x y : Q) : Qmax x y = if Qlt_bool x y then y else x.
Proof.
  unfold Qmax, GenericMinMax.gmax.
  destruct (Qcompare x y) eqn:C.
  - apply Qeq_alt in C.
    replace (Qlt_bool x y) with false; [reflexivity|].
    symmetry. apply Qlt_bool_false. rewrite C. apply Qle_refl.
  - apply Qlt_alt, Qlt_bool_iff in C. now rewrite C.
  - apply Qgt_alt in C.
    replace (Qlt_bool x y) with false; [reflexivity|].
    symmetry. apply Qlt_bool_false. now apply Qlt_le_weak.
Qed.

Lemma drawdowns_cons (p v : Q) (curve : list Q) :
  drawdowns p (v :: curve)
  = ((Qmax p v - v) / Qmax p v)%Q :: drawdowns (Qmax p v) curve.
Proof. reflexivity. Qed.

(** One turn of the loop on finite values, the peak so far being positive. *)
Lemma drawdown_step_fin (p m v : Q) :
  (0 < p)%Q ->
  drawdown_step (Fin p, Fin m) (Fin v)
  = (Fin (Qmax p v), Fin (Qmax m ((Qmax p v - v) / Qmax p v))).
Proof.
  intros Hp.
  assert (Hq : (0 < Qmax p v)%Q)
    by (eapply Qlt_le_trans; [exact Hp | apply Q.le_max_l]).
  unfold drawdown_step. cbn [fst snd num_gt].
  replace (if Qlt_bool p v then Fin v else Fin p) with (Fin (Qmax p v))
    by (rewrite Qmax_if; now destruct (Qlt_bool p v)).
  cbn [num_sub num_neg num_add true_divide].
  destruct (Qeq_bool (Qmax p v) 0) eqn:Z0.
  { apply Qeq_bool_iff in Z0. rewrite Z0 in Hq. lra. }
  cbn [num_gt]. f_equal.
  rewrite (Qmax_if m). unfold Qminus.
  now destruct (Qlt_bool m _).
Qed.

Lemma drawdown_loop_fin (curve : list Q) (p m : Q) :
  (0 < p)%Q ->
  snd (fold_left drawdown_step (map Fin curve) (Fin p, Fin m))
  = Fin (fold_left Qmax (drawdowns p curve) m).
Proof.
  revert p m. induction curve as [|v curve IH]; intros p m Hp.
  - reflexivity.
  - cbn [map fold_left]. rewrite drawdown_step_fin by exact Hp.
    rewrite IH by (eapply Qlt_le_trans; [exact Hp | apply Q.le_max_l]).
    now rewrite drawdowns_cons.
Qed.

Lemma fold_right_Qmax_push (ds : list Q) (m d : Q) :
  (fold_right Qmax (Qmax m d) ds == Qmax d (fold_right Qmax m ds))%Q.
Proof.
  induction ds as [|x ds IH]; cbn [fold_right].
  - apply Q.max_comm.
  - rewrite IH, !Q.max_assoc, (Q.max_comm x d). reflexivity.
Qed.

Lemma fold_left_right_Qmax (ds : list Q) (m : Q) :
  (fold_left Qmax ds m == fold_right Qmax m ds)%Q.
Proof.
  revert m. induction ds as [|d ds IH]; intros m; cbn [fold_left fold_right].
  - reflexivity.
  - rewrite IH. apply fold_right_Qmax_push.
Qed.

Lemma fold_right_Qmax_nonneg (ds : list Q) : (0 <= fold_right Qmax 0 ds)%Q.
Proof.
  induction ds as [|d ds IH]; cbn [fold_right]; [lra|].
  eapply Qle_trans; [exact IH | apply Q.le_max_r].
Qed.

Lemma fold_right_Qmax_zero (ds : list Q) :
  Forall (fun d => (d == 0)%Q) ds -> (fold_right Qmax 0 ds == 0)%Q.
Proof.
  induction 1 as [|d ds Hd _ IH]; cbn [fold_right]; [reflexivity|].
  rewrite IH, Hd. apply Q.max_id.
Qed.

(** On a curve that never falls, every drawdown is zero. *)
Lemma drawdowns_nondecreasing (curve : list Q) (p : Q) :
  (0 < p)%Q ->
  match curve with v :: _ => (p <= v)%Q | [] => True end ->
  nondecreasing curve ->
  Forall (fun d => (d == 0)%Q) (drawdowns p curve).
Proof.
  revert p. induction curve as [|v curve IH]; intros p Hp Hv Hn.
  - constructor.
  - rewrite drawdowns_cons.
    pose proof (Q.max_r p v Hv) as M.
    assert (Hq : (0 < Qmax p v)%Q) by (rewrite M; lra).
    constructor.
    + rewrite M. field. lra.
    + apply IH; [exact Hq | | ].
      * destruct curve as [|w curve]; [exact I|]. rewrite M. apply Hn.
      * destruct curve as [|w curve]; [exact I | apply Hn].
Qed.

(** C4.  For a curve of finite values that starts above zero, the loop
    returns the largest of the drawdowns (peak - value) / peak, the peak
    being the running maximum from the first value on; the result is never
    negative and is 0 when the curve never falls.  The curve
    [100000, 110000, 95000, 105000] gives 15000/110000. *)
Theorem max_drawdown_running_peak :
  (forall (first : Q) (rest : list Q),
     (0 < first)%Q ->
     exists r : Q,
       max_drawdown (map Fin (first :: rest)) = Some (Fin r) /\
       (r == spec_max_drawdown first rest)%Q /\
       (0 <= r)%Q /\
       (nondecreasing (first :: rest) -> (r == 0)%Q))
  /\
  (exists r : Q,
     max_drawdown (map Fin sample_curve) = Some (Fin r) /\
     (r == 15000 / 110000)%Q).
Proof.
  split.
  - intros first rest Hf.
    exists (fold_left Qmax (drawdowns first (first :: rest)) 0%Q).
    assert (E : (fold_left Qmax (drawdowns first (first :: rest)) 0
                 == spec_max_drawdown first rest)%Q)
      by apply fold_left_right_Qmax.
    split; [|split; [exact E | split]].
    + unfold max_drawdown. cbn [map]. f_equal.
      exact (drawdown_loop_fin (first :: rest) first 0 Hf).
    + rewrite E. apply fold_right_Qmax_nonneg.
    + intros Hn. rewrite E. apply fold_right_Qmax_zero.
      apply drawdowns_nondecreasing; [exact Hf | apply Qle_refl | exact Hn].
  - eexists. split; [vm_compute; reflexivity | reflexivity].
Qed.

Lemma max_drawdown_running_peak_witness :
  exists r : Q,
    max_drawdown (map Fin sample_curve) = Some (Fin r) /\
    (r == spec_max_drawdown 100000 [110000; 95000; 105000])%Q /\
    (r == 3 # 22)%Q.
Proof.
  destruct (proj1 max_drawdown_running_peak 100000%Q [110000; 95000; 105000]%Q
              ltac:(reflexivity))
    as (r & E & S & _).
  exists r. split; [exact E | split; [exact S|]].
  rewrite S. reflexivity.
Defined.

(* ================================================================== *)
(** * Part III.  Further properties of the code                       *)
(* ================================================================== *)

(** ** Files made of several parts *)

Lemma u32_at_app_l (b1 b2 : list byte) (off : nat) :
  (off + 3 < List.length b1)%nat -> u32_at (b1 ++ b2) off = u32_at b1 off.
Proof.
  intros H. unfold u32_at. rewrite !app_nth1 by lia. reflexivity.
Qed.

Lemma u32_at_app_r (b1 b2 : list byte) (off : nat) :
  u32_at (b1 ++ b2) (List.length b1 + off) = u32_at b2 off.
Proof.
  unfold u32_at. rewrite !app_nth2 by lia.
  replace (List.length b1 + off - List.length b1)%nat with off by lia.
  replace (List.length b1 + off + 1 - List.length b1)%nat with (off + 1)%nat by lia.
  replace (List.length b1 + off + 2 - List.length b1)%nat with (off + 2)%nat by lia.
  replace (List.length b1 + off + 3 - List.length b1)%nat with (off + 3)%nat by lia.
  reflexivity.
Qed.

Lemma bar_at_app_l (b1 b2 : list byte) (k i : nat) :
  List.length b1 = (32 * k)%nat -> (i < k)%nat ->
  bar_at (b1 ++ b2) i = bar_at b1 i.
Proof.
  intros L H. unfold bar_at.
  replace (32 * i)%nat with (32 * i + 0)%nat at 1 3 by lia.
  rewrite !u32_at_app_l by lia. reflexivity.
Qed.

Lemma bar_at_app_r (b1 b2 : list byte) (k j : nat) :
  List.length b1 = (32 * k)%nat ->
  bar_at (b1 ++ b2) (k + j) = bar_at b2 j.
Proof.
  intros L. unfold bar_at.
  replace (32 * (k + j))%nat with (List.length b1 + 32 * j)%nat by lia.
  replace (List.length b1 + 32 * j + 4)%nat with (List.length b1 + (32 * j + 4))%nat by lia.
  replace (List.length b1 + 32 * j + 8)%nat with (List.length b1 + (32 * j + 8))%nat by lia.
  replace (List.length b1 + 32 * j + 12)%nat with (List.length b1 + (32 * j + 12))%nat by lia.
  replace (List.length b1 + 32 * j + 16)%nat with (List.length b1 + (32 * j + 16))%nat by lia.
  replace (List.length b1 + 32 * j + 24)%nat with (List.length b1 + (32 * j + 24))%nat by lia.
  rewrite !u32_at_app_r. reflexivity.
Qed.

Lemma bar_at_app_r_seq (b1 b2 : list byte) (k : nat) :
  List.length b1 = (32 * k)%nat ->
  forall n j : nat,
    map (bar_at (b1 ++ b2)) (seq (k + j) n) = map (bar_at b2) (seq j n).
Proof.
  intros L. induction n as [|n IH]; intros j; [reflexivity|].
  cbn [seq map]. rewrite (bar_at_app_r b1 b2 k j L). f_equal.
  replace (S (k + j)) with (k + S j)%nat by lia. apply IH.
Qed.

Lemma all_some_app {A : Type} (l1 l2 : list (option A)) :
  all_some (l1 ++ l2) =
  match all_some l1 with
  | None => None
  | Some r1 =>
      match all_some l2 with
      | None => None
      | Some r2 => Some (r1 ++ r2)
      end
  end.
Proof.
  induction l1 as [|[a|] l1 IH]; cbn [app all_some].
  - destruct (all_some l2); reflexivity.
  - rewrite IH. destruct (all_some l1); [|reflexivity].
    destruct (all_some l2); reflexivity.
  - reflexivity.
Qed.

(** X1.  Records decode one by one: a file that is a run of complete
    records followed by more bytes decodes to the rows of the first part
    followed by the rows of the second, and fails when either part does. *)
Theorem read_day_file_app (b1 b2 : list byte) (k : nat) :
  List.length b1 = (32 * k)%nat ->
  read_day_file (b1 ++ b2) =
  match read_day_file b1 with
  | None => None
  | Some rows1 =>
      match read_day_file b2 with
      | None => None
      | Some rows2 => Some (rows1 ++ rows2)
      end
  end.
Proof.
  intros L. rewrite !read_day_file_rows, length_app, L.
  replace ((32 * k + List.length b2) / 32)%nat with (k + List.length b2 / 32)%nat
    by (rewrite (Nat.mul_comm 32 k), Nat.div_add_l; lia).
  replace (32 * k / 32)%nat with k by (rewrite Nat.mul_comm, Nat.div_mul; lia).
  rewrite seq_app, map_app, all_some_app. cbn [Nat.add].
  replace (map (bar_at (b1 ++ b2)) (seq 0 k)) with (map (bar_at b1) (seq 0 k)).
  2:{ apply map_ext_in. intros i Hi. apply in_seq in Hi.
      symmetry. apply (bar_at_app_l b1 b2 k); [exact L | lia]. }
  replace (map (bar_at (b1 ++ b2)) (seq k (List.length b2 / 32)))
    with (map (bar_at b2) (seq 0 (List.length b2 / 32))).
  2:{ symmetry. rewrite <- (Nat.add_0_r k) at 1.
      apply (bar_at_app_r_seq b1 b2 k L). }
  reflexivity.
Qed.

Lemma read_day_file_app_witness :
  read_day_file (firstn 32 sample_buffer ++ skipn 32 sample_buffer)
  = Some sample_bars.
Proof.
  rewrite (read_day_file_app (firstn 32 sample_buffer) (skipn 32 sample_buffer) 1
             eq_refl).
  reflexivity.
Defined.

(** ** The values of a decoded row *)

Lemma byte_val_range (b : byte) : 0 <= byte_val b <= 255.
Proof.
  unfold byte_val. pose proof (Byte.to_N_bounded b). lia.
Qed.

Lemma u32_at_range (buffer : list byte) (off : nat) :
  0 <= u32_at buffer off < 4294967296.
Proof.
  unfold u32_at.
  pose proof (byte_val_range (nth off buffer x00)).
  pose proof (byte_val_range (nth (off + 1) buffer x00)).
  pose proof (byte_val_range (nth (off + 2) buffer x00)).
  pose proof (byte_val_range (nth (off + 3) buffer x00)).
  lia.
Qed.

Lemma cents_nonneg (q : Q) : cents_u32 q -> (0 <= q)%Q.
Proof.
  intros (k & Hk & ->). apply Qle_shift_div_l; [reflexivity|].
  rewrite Qmult_0_l. rewrite <- (Zle_Qle 0). lia.
Qed.

Lemma strptime_valid (s : list ascii) (date : datetime) :
  strptime_Ymd s = Some date ->
  valid_date (year date) (month date) (day date) = true.
Proof.
  unfold strptime_Ymd.
  destruct (re_Ymd s) as [|[[[y m] d] [|c rest]] tl]; try discriminate.
  destruct (valid_date y m d) eqn:V; [|discriminate].
  now intros [= <-].
Qed.

(** X2.  Every row of a decoded file carries a calendar day, four prices
    that are a 32-bit unsigned integer over 100 (so none is negative) and a
    volume that is a 32-bit unsigned integer. *)
Theorem read_day_file_values (buffer : list byte) (bars : list bar) :
  read_day_file buffer = Some bars ->
  Forall (fun b =>
            valid_date (year (Date b)) (month (Date b)) (day (Date b)) = true
            /\ cents_u32 (Open b) /\ cents_u32 (High b)
            /\ cents_u32 (Low b) /\ cents_u32 (Close b)
            /\ (0 <= Close b)%Q
            /\ 0 <= Volume b < 4294967296) bars.
Proof.
  rewrite read_day_file_rows. intros H.
  apply Forall_forall. intros b Hb.
  destruct (In_nth_error _ _ Hb) as (i & Hi).
  assert (Li : (i < List.length bars)%nat)
    by (apply nth_error_Some; congruence).
  pose proof (all_some_length _ _ H) as Lr.
  destruct (all_some_nth _ _ i H) as (b' & E1 & E2); [lia|].
  rewrite Hi in E2. injection E2 as <-.
  rewrite length_map, length_seq in Lr.
  rewrite nth_error_map_seq in E1 by lia.
  injection E1 as E1. unfold bar_at in E1.
  destruct (strptime_Ymd _) as [date|] eqn:D; [|discriminate].
  injection E1 as <-. cbn [Date Open High Low Close Volume].
  assert (C : forall off, cents_u32 (inject_Z (u32_at buffer off) / 100)%Q)
    by (intros off; eexists; split; [apply u32_at_range | reflexivity]).
  repeat split; try apply C; try apply u32_at_range.
  - exact (strptime_valid _ _ D).
  - apply cents_nonneg, C.
Qed.

Lemma read_day_file_values_witness :
  Forall (fun b => (0 <= Close b)%Q /\ 0 <= Volume b < 4294967296) sample_bars.
Proof.
  eapply Forall_impl; [|exact (read_day_file_values sample_buffer sample_bars eq_refl)].
  intros b H. split; apply H.
Defined.

(** ** Date fields with too few or too many digits *)

Lemma str_int_aux_length_ge (fuel : nat) (n : Z) (acc : list ascii) :
  (List.length acc <= List.length (str_int_aux fuel n acc))%nat.
Proof.
  revert n acc. induction fuel as [|fuel IH]; intros n acc; cbn [str_int_aux].
  - lia.
  - destruct (n <? 10); cbn [List.length]; [lia|].
    specialize (IH (n / 10) (digit_char (n mod 10) :: acc)).
    cbn [List.length] in IH. lia.
Qed.

(** A number below [10^k] has at most [k] digits. *)
Lemma str_int_aux_length_le (fuel k : nat) (n : Z) (acc : list ascii) :
  (1 <= k)%nat -> n < 10 ^ Z.of_nat k ->
  (List.length (str_int_aux fuel n acc) <= List.length acc + k)%nat.
Proof.
  revert k n acc. induction fuel as [|fuel IH]; intros k n acc Hk Hn;
    cbn [str_int_aux].
  - lia.
  - destruct (n <? 10) eqn:E; cbn [List.length]; [lia|].
    apply Z.ltb_ge in E.
    destruct k as [|[|k]]; [lia | cbn in Hn; lia |].
    specialize (IH (S k) (n / 10) (digit_char (n mod 10) :: acc)).
    cbn [List.length] in IH.
    assert (n / 10 < 10 ^ Z.of_nat (S k)).
    { apply Z.div_lt_upper_bound; [lia|].
      rewrite (Nat2Z.inj_succ (S k)), Z.pow_succ_r in Hn by lia. exact Hn. }
    specialize (IH ltac:(lia) H). lia.
Qed.

(** A number from [10^k] on has more than [k] digits. *)
Lemma str_int_aux_length_gt (k fuel : nat) (n : Z) (acc : list ascii) :
  (k < fuel)%nat -> 10 ^ Z.of_nat k <= n ->
  (List.length acc + k + 1 <= List.length (str_int_aux fuel n acc))%nat.
Proof.
  revert fuel n acc. induction k as [|k IH]; intros fuel n acc Hf Hn;
    (destruct fuel as [|fuel]; [lia|]); cbn [str_int_aux].
  - destruct (n <? 10); cbn [List.length]; [lia|].
    pose proof (str_int_aux_length_ge fuel (n / 10) (digit_char (n mod 10) :: acc)) as G.
    cbn [List.length] in G. lia.
  - rewrite Nat2Z.inj_succ, Z.pow_succ_r in Hn by lia.
    assert (P : 0 < 10 ^ Z.of_nat k) by (apply Z.pow_pos_nonneg; lia).
    replace (n <? 10) with false by (symmetry; apply Z.ltb_ge; lia).
    specialize (IH fuel (n / 10) (digit_char (n mod 10) :: acc) ltac:(lia)).
    cbn [List.length] in IH.
    assert (10 ^ Z.of_nat k <= n / 10) by (apply Z.div_le_lower_bound; lia).
    specialize (IH H). lia.
Qed.

Lemma two_chars_length (p1 p2 : ascii -> bool) (s r : list ascii) (v : Z) :
  In (v, r) (two_chars p1 p2 s) -> List.length s = (2 + List.length r)%nat.
Proof.
  unfold two_chars. destruct s as [|a [|b rest]]; try contradiction.
  destruct (p1 a && p2 b); [|contradiction].
  intros [[= _ <-]|[]]. reflexivity.
Qed.

Lemma one_char_length (p : ascii -> bool) (s r : list ascii) (v : Z) :
  In (v, r) (one_char p s) -> List.length s = (1 + List.length r)%nat.
Proof.
  unfold one_char. destruct s as [|a rest]; try contradiction.
  destruct (p a); [|contradiction].
  intros [[= _ <-]|[]]. reflexivity.
Qed.

Lemma re_m_length (s r : list ascii) (v : Z) :
  In (v, r) (re_m s) ->
  List.length s = (1 + List.length r)%nat \/ List.length s = (2 + List.length r)%nat.
Proof.
  unfold re_m. rewrite !in_app_iff. intros [H|[H|H]].
  - right. exact (two_chars_length _ _ _ _ _ H).
  - right. exact (two_chars_length _ _ _ _ _ H).
  - left. exact (one_char_length _ _ _ _ H).
Qed.

Lemma re_d_length (s r : list ascii) (v : Z) :
  In (v, r) (re_d s) ->
  List.length s = (1 + List.length r)%nat \/ List.length s = (2 + List.length r)%nat.
Proof.
  unfold re_d. rewrite !in_app_iff. intros [H|[H|[H|[H|H]]]].
  - right. exact (two_chars_length _ _ _ _ _ H).
  - right. exact (two_chars_length _ _ _ _ _ H).
  - right. exact (two_chars_length _ _ _ _ _ H).
  - left. exact (one_char_length _ _ _ _ H).
  - right. destruct s as [|a [|b rest]]; try contradiction.
    destruct (is_char " " a && in_range "1" "9" b); [|contradiction].
    destruct H as [[= _ <-]|[]]. reflexivity.
Qed.

(** The pattern [%Y%m%d] consumes six to eight characters. *)
Lemma re_Ymd_length (s r : list ascii) (y m d : Z) :
  In (y, m, d, r) (re_Ymd s) ->
  (6 + List.length r <= List.length s <= 8 + List.length r)%nat.
Proof.
  unfold re_Ymd, re_md. intros H.
  apply in_flat_map in H. destruct H as ([vy ry] & HY & H).
  apply in_map_iff in H. destruct H as ([[vm vd] rd] & E & H).
  cbn [fst snd] in E, H. injection E as _ _ _ <-.
  apply in_flat_map in H. destruct H as ([vm' rm] & HM & H).
  apply in_map_iff in H. destruct H as ([vd' rd'] & E & HD).
  cbn [fst snd] in E, HD. injection E as _ _ <-.
  assert (LY : List.length s = (4 + List.length ry)%nat).
  { unfold re_Y in HY. destruct s as [|a [|b [|c [|e rest]]]]; try contradiction.
    destruct (_ && _); [|contradiction].
    destruct HY as [[= _ <-]|[]]. reflexivity. }
  pose proof (re_m_length _ _ _ HM). pose proof (re_d_length _ _ _ HD). lia.
Qed.

Lemma strptime_Ymd_length (s : list ascii) (date : datetime) :
  strptime_Ymd s = Some date -> (6 <= List.length s <= 8)%nat.
Proof.
  unfold strptime_Ymd.
  destruct (re_Ymd s) as [|[[[y m] d] [|c rest]] tl] eqn:E; try discriminate.
  intros _.
  pose proof (re_Ymd_length s [] y m d) as L. rewrite E in L.
  specialize (L (or_introl eq_refl)). cbn [List.length] in L. lia.
Qed.

Lemma all_some_nth_None {A : Type} (l : list (option A)) (i : nat) :
  nth_error l i = Some None -> all_some l = None.
Proof.
  revert i. induction l as [|[a|] l IH]; intros [|i]; cbn; try discriminate.
  - intros H. now rewrite (IH i H).
  - reflexivity.
  - reflexivity.
Qed.

(** X3.  A complete record whose date field is below 100000 or from
    100000000 on (fewer than six or more than eight digits) makes the whole
    file unreadable, wherever the record is. *)
Theorem read_day_file_date_digits (buffer : list byte) (i : nat) :
  (i < List.length buffer / 32)%nat ->
  u32_at buffer (32 * i) < 100000 \/ 100000000 <= u32_at buffer (32 * i) ->
  read_day_file buffer = None.
Proof.
  intros Hi Hd. rewrite read_day_file_rows.
  apply (all_some_nth_None _ i).
  rewrite nth_error_map_seq by exact Hi. f_equal.
  unfold bar_at.
  destruct (strptime_Ymd _) as [date|] eqn:E; [exfalso | reflexivity].
  apply strptime_Ymd_length in E. unfold str_int in E.
  destruct Hd as [Hd|Hd].
  - pose proof (str_int_aux_length_le 10 5 (u32_at buffer (32 * i)) []
                  ltac:(lia) Hd) as L.
    cbn [List.length] in L. lia.
  - pose proof (str_int_aux_length_gt 8 10 (u32_at buffer (32 * i)) []
                  ltac:(lia) Hd) as L.
    cbn [List.length] in L. lia.
Qed.

Lemma read_day_file_date_digits_witness :
  read_day_file (sample_buffer ++ zero_record) = None.
Proof.
  apply (read_day_file_date_digits (sample_buffer ++ zero_record) 2).
  - vm_compute. lia.
  - left. vm_compute. reflexivity.
Defined.

(** ** Six-digit date fields *)

Lemma str_int_6 (a b c d e f : Z) :
  1 <= a <= 9 -> 0 <= b <= 9 -> 0 <= c <= 9 -> 0 <= d <= 9 ->
  0 <= e <= 9 -> 0 <= f <= 9 ->
  str_int (10 * (10 * (10 * (10 * (10 * a + b) + c) + d) + e) + f)
  = map digit_char [a; b; c; d; e; f].
Proof.
  intros. unfold str_int.
  rewrite !str_int_aux_step by lia.
  rewrite str_int_aux_last by lia.
  reflexivity.
Qed.

Lemma md1_table :
  forallb (fun m => forallb (md1_first_ok m) (Z_range 1 9)) (Z_range 1 9) = true.
Proof. vm_compute. reflexivity. Qed.

Lemma md1_first (m d : Z) :
  1 <= m <= 9 -> 1 <= d <= 9 -> md1_first_ok m d = true.
Proof.
  intros Hm Hd. pose proof md1_table as T.
  rewrite forallb_forall in T.
  specialize (T m (Z_range_In 1 9 m ltac:(lia))).
  rewrite forallb_forall in T.
  apply T, Z_range_In. lia.
Qed.

(** X4.  The date field need not have eight digits: a six-digit number
    YYYYMD, with month and day from 1 to 9, is read as the day D of the
    month M of the year YYYY (202311 is the first of January 2023). *)
Theorem strptime_six_digits (y m d : Z) :
  1000 <= y <= 9999 -> 1 <= m <= 9 -> 1 <= d <= 9 ->
  strptime_Ymd (str_int (y * 100 + m * 10 + d)) = Some (mk_date y m d).
Proof.
  intros Hy Hm Hd.
  set (a := y / 1000). set (b := y / 100 mod 10).
  set (c := y / 10 mod 10). set (e := y mod 10).
  assert (Hn : y * 100 + m * 10 + d =
               10 * (10 * (10 * (10 * (10 * a + b) + c) + e) + m) + d)
    by (subst a b c e; Z.div_mod_to_equations; lia).
  assert (Ha : 1 <= a <= 9) by (subst a; Z.div_mod_to_equations; lia).
  assert (Hb : 0 <= b <= 9) by (subst b; Z.div_mod_to_equations; lia).
  assert (Hc : 0 <= c <= 9) by (subst c; Z.div_mod_to_equations; lia).
  assert (He : 0 <= e <= 9) by (subst e; Z.div_mod_to_equations; lia).
  assert (Hyv : 1000 * a + 100 * b + 10 * c + e = y)
    by (subst a b c e; Z.div_mod_to_equations; lia).
  rewrite Hn, str_int_6 by lia.
  pose proof (md1_first m d Hm Hd) as F. unfold md1_first_ok, md1_text in F.
  unfold strptime_Ymd, re_Ymd, re_Y. cbn [map].
  rewrite !in_range_digit, !digit_val_char by lia.
  cbn [andb flat_map fst snd]. rewrite app_nil_r, Hyv.
  destruct (re_md _) as [|[[m' d'] [|x rest]] tl]; try discriminate.
  apply andb_true_iff in F. destruct F as [Em Ed].
  apply Z.eqb_eq in Em, Ed. subst m' d'.
  cbn [map fst snd].
  replace (valid_date y m d) with true; [reflexivity|].
  symmetry. unfold valid_date.
  pose proof (days_in_month_le y m).
  assert (28 <= days_in_month y m).
  { unfold days_in_month. destruct (m =? 2); [destruct (is_leap y); lia|].
    destruct ((m =? 4) || (m =? 6) || (m =? 9) || (m =? 11)); lia. }
  rewrite !andb_true_iff, !Z.leb_le. lia.
Qed.

Lemma strptime_six_digits_witness :
  strptime_Ymd (str_int 202311) = Some (mk_date 2023 1 1).
Proof.
  apply (strptime_six_digits 2023 1 1); lia.
Defined.

(** ** Starting a session *)

Lemma slice_nth_error {A : Type} (l : list A) (lo n i : nat) :
  (i < n)%nat -> nth_error (slice l lo (lo + n)) i = nth_error l (lo + i).
Proof.
  intros H. unfold slice.
  replace (lo + n - lo)%nat with n by lia.
  rewrite nth_error_firstn.
  replace (i <? n)%nat with true by (symmetry; apply Nat.ltb_lt; lia).
  apply nth_error_skipn.
Qed.

Lemma slice_window_length {A : Type} (l : list A) (lo n : nat) :
  (lo + n <= List.length l)%nat -> List.length (slice l lo (lo + n)) = n.
Proof.
  intros H. unfold slice. rewrite length_firstn, length_skipn. lia.
Qed.

(** X5.  When the file decodes to at least 185 rows and the random start is
    in range, the session is exactly 185 consecutive rows of the file from
    that start on, the ledger is the initial one whatever it was before,
    and the cursor (row 64 of the window) is not on the last row. *)
Theorem start_simulation_window
        (buffer : list byte) (randint : nat -> nat -> nat)
        (self : simulator) (frame : list bar) :
  read_day_file buffer = Some frame ->
  (required_days <= List.length frame)%nat ->
  (randint 0 (List.length frame - required_days)
   <= List.length frame - required_days)%nat ->
  List.length (current_data (_start_simulation buffer randint self)) = required_days
  /\ (forall i : nat, (i < required_days)%nat ->
        nth_error (current_data (_start_simulation buffer randint self)) i
        = nth_error frame (randint 0 (List.length frame - required_days) + i)%nat)
  /\ _start_simulation buffer randint self
     = _reset_trading_state
         (set_current_data init_simulator
            (current_data (_start_simulation buffer randint self)))
  /\ at_end (_start_simulation buffer randint self) = false.
Proof.
  intros R L S.
  assert (E : _start_simulation buffer randint self
              = _reset_trading_state
                  (set_current_data self
                     (slice frame
                        (randint 0 (List.length frame - required_days))%nat
                        (randint 0 (List.length frame - required_days)
                         + required_days)%nat))).
  { unfold _start_simulation, start_steps. rewrite R.
    unfold bind, modify, get. cbn [snd current_data set_current_data].
    replace (List.length frame <? required_days)%nat with false
      by (symmetry; apply Nat.ltb_ge; exact L).
    reflexivity. }
  rewrite E. cbn [current_data _reset_trading_state set_current_data].
  assert (Len : List.length
                  (slice frame (randint 0 (List.length frame - required_days))%nat
                     (randint 0 (List.length frame - required_days)
                      + required_days)%nat) = required_days)
    by (apply slice_window_length; lia).
  repeat split.
  - exact Len.
  - intros i Hi. now apply slice_nth_error.
  - unfold at_end.
    cbn [current_index current_data _reset_trading_state set_current_data].
    rewrite Len. reflexivity.
Qed.

Lemma start_simulation_window_witness :
  List.length (current_data zero_close_start) = 185%nat
  /\ nth_error (current_data zero_close_start) 64 = nth_error zero_close_frame 64.
Proof.
  destruct (start_simulation_window zero_close_file (fun lo _ => lo)
              init_simulator zero_close_frame)
    as (L & W & _).
  - vm_compute. reflexivity.
  - vm_compute. lia.
  - vm_compute. lia.
  - split; [exact L | exact (W 64%nat ltac:(vm_compute; lia))].
Defined.

(** X6.  A start that fails does not leave the object alone in every case.
    When the file cannot be read nothing changes.  When it has fewer than
    185 rows, the frame of the object is already replaced by the whole
    short file while the ledger and the cursor keep their old values, and a
    click is still accepted as long as the old cursor is before the last
    row of that file. *)
Theorem start_simulation_failure
        (buffer : list byte) (randint : nat -> nat -> nat) (self : simulator) :
  (read_day_file buffer = None ->
   _start_simulation buffer randint self = self)
  /\
  (forall frame : list bar,
     read_day_file buffer = Some frame ->
     (List.length frame < required_days)%nat ->
     _start_simulation buffer randint self = set_current_data self frame
     /\ (fst (_execute_trade hold (_start_simulation buffer randint self)) = Executed
         <-> (current_index self + 1 < List.length frame)%nat)).
Proof.
  split.
  - intros R. unfold _start_simulation, start_steps. now rewrite R.
  - intros frame R L.
    assert (E : _start_simulation buffer randint self = set_current_data self frame).
    { unfold _start_simulation, start_steps. rewrite R.
      unfold bind, modify, get. cbn [snd current_data set_current_data].
      replace (List.length frame <? required_days)%nat with true
        by (symmetry; apply Nat.ltb_lt; exact L).
      reflexivity. }
    split; [exact E|]. rewrite E. unfold _execute_trade.
    destruct (at_end (set_current_data self frame)) eqn:A.
    + split; [discriminate|]. intros H.
      unfold at_end in A. cbn [current_index current_data set_current_data] in A.
      rewrite Z.geb_leb, Z.leb_le in A. lia.
    + destruct (current_bar_exists _ A) as (b & Eb).
      rewrite (trade_steps_hold _ b Eb). split; [intros _ | reflexivity].
      apply at_end_false in A.
      cbn [current_index current_data set_current_data] in A. lia.
Qed.

Lemma start_simulation_failure_witness :
  _start_simulation sample_buffer (fun lo _ => lo) init_simulator
  = set_current_data init_simulator sample_bars.
Proof.
  apply (proj2 (start_simulation_failure sample_buffer (fun lo _ => lo) init_simulator)
               sample_bars eq_refl).
  vm_compute. lia.
Defined.

(** ** What every click keeps *)

(** A click either changes nothing, or adds one record and one equity value
    and moves the cursor by one, on the same frame. *)
Lemma execute_trade_step (act : action) (s : simulator) :
  (fst (_execute_trade act s) <> Executed /\ snd (_execute_trade act s) = s)
  \/
  (fst (_execute_trade act s) = Executed
   /\ at_end s = false
   /\ exists (b : bar) (r : trade) (v : num),
        nth_error (current_data s) (current_index s) = Some b
        /\ current_data (snd (_execute_trade act s)) = current_data s
        /\ current_index (snd (_execute_trade act s)) = S (current_index s)
        /\ trade_log (snd (_execute_trade act s)) = trade_log s ++ [r]
        /\ trade_action r = act
        /\ trade_price r = Close b
        /\ equity_curve (snd (_execute_trade act s)) = equity_curve s ++ [v]
        /\ v = equity (snd (_execute_trade act s)) (Close b)).
Proof.
  unfold _execute_trade. destruct (at_end s) eqn:H.
  { left. split; [discriminate | reflexivity]. }
  destruct (current_bar_exists s H) as (b & E).
  destruct act.
  - rewrite (trade_steps_buy s b E).
    destruct (num_gt (position s) (Fin 0));
      [left; split; [discriminate | reflexivity]|].
    cbv zeta.
    destruct (num_lt (floor_divide (cash s) (Close b)) (Fin 1));
      [left; split; [discriminate | reflexivity]|].
    right. split; [reflexivity|]. split; [reflexivity|].
    exists b. eexists. eexists. cbn [fst snd current_data current_index trade_log
                                      equity_curve trade_action trade_price].
    repeat split; try reflexivity; try exact E. apply Nat.add_1_r.
  - rewrite (trade_steps_sell s b E).
    destruct (num_eq (position s) (Fin 0));
      [left; split; [discriminate | reflexivity]|].
    right. split; [reflexivity|]. split; [reflexivity|].
    exists b. eexists. eexists. cbn [fst snd current_data current_index trade_log
                                      equity_curve trade_action trade_price].
    repeat split; try reflexivity; try exact E. apply Nat.add_1_r.
  - rewrite (trade_steps_hold s b E).
    right. split; [reflexivity|]. split; [reflexivity|].
    exists b. eexists. eexists. cbn [fst snd current_data current_index trade_log
                                      equity_curve trade_action trade_price].
    repeat split; try reflexivity; try exact E. apply Nat.add_1_r.
Qed.

(** X7.  The trade log and the equity curve only grow at the end: after any
    sequence of clicks both still begin with what they held before, they
    have grown by the same number of entries, the cursor has moved on by
    that number, which is at most the number of clicks, and the frame is
    the same. *)
Theorem run_appends (acts : list action) (s : simulator) :
  exists (records : list trade) (values : list num),
    trade_log (run acts s) = trade_log s ++ records
    /\ equity_curve (run acts s) = equity_curve s ++ values
    /\ List.length values = List.length records
    /\ (List.length records <= List.length acts)%nat
    /\ current_index (run acts s) = (current_index s + List.length records)%nat
    /\ current_data (run acts s) = current_data s.
Proof.
  revert s. induction acts as [|a acts IH]; intros s.
  - exists [], []. cbn. rewrite !app_nil_r. repeat split; lia.
  - change (run (a :: acts) s) with (run acts (snd (_execute_trade a s))).
    destruct (IH (snd (_execute_trade a s))) as (rs & vs & L & C & N & B & I & D).
    destruct (execute_trade_step a s)
      as [[_ E]|(_ & _ & b & r & v & _ & D' & I' & L' & _ & _ & C' & _)].
    + rewrite E in *. exists rs, vs. cbn [List.length].
      repeat split; try assumption. lia.
    + exists (r :: rs), (v :: vs).
      rewrite L, C, I, D, L', C', I', D', <- !app_assoc. cbn [app List.length].
      repeat split; lia.
Qed.

Lemma ledger_shape_step (act : action) (s : simulator) :
  ledger_shape s -> ledger_shape (snd (_execute_trade act s)).
Proof.
  intros (C & I & B).
  destruct (execute_trade_step act s)
    as [[_ E]|(_ & A & b & r & v & _ & D' & I' & L' & _ & _ & C' & _)].
  - rewrite E. now repeat split.
  - apply at_end_false in A. unfold ledger_shape.
    rewrite D', I', L', C', !length_app. cbn [List.length].
    repeat split; lia.
Qed.

(** X8.  From the state in which a session starts, whatever is clicked:
    the equity curve has one value more than the log has records, the
    cursor is 64 plus the number of records, and the number of records is
    at most the number of rows minus 65, so the cursor never passes the
    last row; a loaded session of 185 rows takes at most 120 actions. *)
Theorem session_bounds (self : simulator) (data : list bar) (acts : list action) :
  List.length
    (equity_curve (run acts (_reset_trading_state (set_current_data self data))))
  = S (List.length
         (trade_log (run acts (_reset_trading_state (set_current_data self data)))))
  /\ current_index (run acts (_reset_trading_state (set_current_data self data)))
     = (64 + List.length
               (trade_log (run acts (_reset_trading_state (set_current_data self data)))))%nat
  /\ (List.length
        (trade_log (run acts (_reset_trading_state (set_current_data self data))))
      <= List.length data - 65)%nat
  /\ (List.length data = required_days ->
      List.length
        (trade_log (run acts (_reset_trading_state (set_current_data self data))))
      <= SIMULATION_DAYS)%nat.
Proof.
  assert (S0 : ledger_shape (_reset_trading_state (set_current_data self data))).
  { unfold ledger_shape.
    cbn [equity_curve trade_log current_index current_data
         _reset_trading_state set_current_data List.length].
    repeat split; lia. }
  assert (D0 : current_data (_reset_trading_state (set_current_data self data)) = data)
    by reflexivity.
  revert S0 D0. generalize (_reset_trading_state (set_current_data self data)).
  induction acts as [|a acts IH]; intros s S0 D0.
  - destruct S0 as (C & I & B). cbn [run fold_left]. rewrite D0 in B.
    repeat split; try assumption; try lia.
    intros L. unfold required_days, SIMULATION_DAYS in *. lia.
  - change (run (a :: acts) s) with (run acts (snd (_execute_trade a s))).
    apply IH; [now apply ledger_shape_step|].
    destruct (execute_trade_step a s)
      as [[_ E]|(_ & _ & b & r & v & _ & D' & _)]; congruence.
Qed.

(** ** The same click twice *)

(** A buy while shares are held, and a sell while none is, change nothing. *)
Lemma buy_while_holding (s : simulator) :
  num_gt (position s) (Fin 0) = true ->
  fst (_execute_trade buy s) <> Executed /\ snd (_execute_trade buy s) = s.
Proof.
  intros P. unfold _execute_trade. destruct (at_end s) eqn:H.
  { split; [discriminate | reflexivity]. }
  destruct (current_bar_exists s H) as (b & E).
  rewrite (trade_steps_buy s b E), P. split; [discriminate | reflexivity].
Qed.

Lemma sell_while_flat (s : simulator) :
  num_eq (position s) (Fin 0) = true ->
  fst (_execute_trade sell s) <> Executed /\ snd (_execute_trade sell s) = s.
Proof.
  intros P. unfold _execute_trade. destruct (at_end s) eqn:H.
  { split; [discriminate | reflexivity]. }
  destruct (current_bar_exists s H) as (b & E).
  rewrite (trade_steps_sell s b E), P. split; [discriminate | reflexivity].
Qed.

(** A number that passes the guard [max_shares < 1] is greater than 0 or
    not-a-number. *)
Lemma not_lt_1 (a : num) :
  num_lt a (Fin 1) = false -> num_gt a (Fin 0) = true \/ a = NaN.
Proof.
  destruct a as [q| | |]; cbn.
  - intros H. left. apply Qlt_bool_iff. apply Qlt_bool_false in H. lra.
  - now left.
  - discriminate.
  - now right.
Qed.

(** With a finite dividend, [a // price] is not-a-number only as [0 // 0.0]. *)
Lemma floor_divide_nan (c price : Q) :
  floor_divide (Fin c) price = NaN -> (c == 0)%Q /\ (price == 0)%Q.
Proof.
  unfold floor_divide. destruct (Qeq_bool price 0) eqn:Z0; [|discriminate].
  apply Qeq_bool_iff in Z0. unfold scale_inf.
  destruct (Qlt_bool 0 c) eqn:L1; [discriminate|].
  destruct (Qlt_bool c 0) eqn:L2; [discriminate|].
  apply Qlt_bool_false in L1, L2. intros _.
  split; [now apply Qle_antisym | exact Z0].
Qed.

(** What a buy that is carried out did. *)
Lemma executed_buy (s : simulator) :
  fst (_execute_trade buy s) = Executed ->
  exists b : bar,
    nth_error (current_data s) (current_index s) = Some b
    /\ num_lt (floor_divide (cash s) (Close b)) (Fin 1) = false
    /\ position (snd (_execute_trade buy s)) = floor_divide (cash s) (Close b).
Proof.
  unfold _execute_trade. destruct (at_end s) eqn:H; [discriminate|].
  destruct (current_bar_exists s H) as (b & E).
  rewrite (trade_steps_buy s b E).
  destruct (num_gt (position s) (Fin 0)); [discriminate|]. cbv zeta.
  destruct (num_lt (floor_divide (cash s) (Close b)) (Fin 1)) eqn:L;
    [discriminate|].
  intros _. exists b. now repeat split.
Qed.

(** X9.  After a buy that was carried out, the position is greater than 0
    or not-a-number.  When it is greater than 0, a second buy right after
    it is turned down and changes nothing: buying twice is buying once.
    The position is not-a-number only when the cash before the buy was not
    a finite number, or was 0 at a row that closes at 0. *)
Theorem second_buy_turned_down (s : simulator) :
  fst (_execute_trade buy s) = Executed ->
  (num_gt (position (snd (_execute_trade buy s))) (Fin 0) = true
   \/ position (snd (_execute_trade buy s)) = NaN)
  /\ (num_gt (position (snd (_execute_trade buy s))) (Fin 0) = true ->
      fst (_execute_trade buy (snd (_execute_trade buy s))) <> Executed
      /\ run [buy; buy] s = run [buy] s)
  /\ (position (snd (_execute_trade buy s)) = NaN ->
      forall c : Q, cash s = Fin c ->
      (c == 0)%Q
      /\ exists b : bar,
           nth_error (current_data s) (current_index s) = Some b
           /\ (Close b == 0)%Q).
Proof.
  intros X. destruct (executed_buy s X) as (b & E & L & P).
  split; [rewrite P; now apply not_lt_1|]. split.
  - intros G. destruct (buy_while_holding _ G) as [N S1].
    split; [exact N|]. cbn [run fold_left]. exact S1.
  - intros N c C. rewrite P, C in N.
    destruct (floor_divide_nan _ _ N) as [Hc Hp].
    split; [exact Hc|]. now exists b.
Qed.

Lemma second_buy_turned_down_witness :
  num_gt (position sample_holding) (Fin 0) = true
  /\ run [buy; buy] sample_start = run [buy] sample_start.
Proof.
  destruct (second_buy_turned_down sample_start eq_refl) as (_ & T & _).
  split; [reflexivity|]. exact (proj2 (T eq_refl)).
Defined.

(** X10.  After a sell that was carried out no share is held, a second sell
    right after it is turned down and changes nothing (selling twice is
    selling once), and a buy right after it is never turned down for
    holding shares. *)
Theorem second_sell_turned_down (s : simulator) :
  fst (_execute_trade sell s) = Executed ->
  position (snd (_execute_trade sell s)) = Fin 0
  /\ fst (_execute_trade sell (snd (_execute_trade sell s))) <> Executed
  /\ run [sell; sell] s = run [sell] s
  /\ fst (_execute_trade buy (snd (_execute_trade sell s)))
     <> TradeFailed ValueError_sell_first.
Proof.
  intros X.
  assert (P : position (snd (_execute_trade sell s)) = Fin 0).
  { revert X. unfold _execute_trade. destruct (at_end s) eqn:H; [discriminate|].
    destruct (current_bar_exists s H) as (b & E).
    rewrite (trade_steps_sell s b E).
    destruct (num_eq (position s) (Fin 0)); [discriminate | reflexivity]. }
  split; [exact P|].
  destruct (sell_while_flat (snd (_execute_trade sell s))) as [N S1];
    [now rewrite P|].
  split; [exact N|]. split; [cbn [run fold_left]; exact S1|].
  unfold _execute_trade at 1.
  destruct (at_end (snd (_execute_trade sell s))) eqn:H; [discriminate|].
  destruct (current_bar_exists _ H) as (b & E).
  rewrite (trade_steps_buy _ b E), P.
  replace (num_gt (Fin 0) (Fin 0)) with false by reflexivity. cbv zeta.
  destruct (num_lt _ _); discriminate.
Qed.

Lemma second_sell_turned_down_witness :
  run [sell; sell] sample_holding = run [sell] sample_holding.
Proof.
  exact (proj1 (proj2 (proj2 (second_sell_turned_down sample_holding eq_refl)))).
Defined.

(** ** Sessions of holds *)

Lemma hold_state (s : simulator) (b : bar) :
  at_end s = false ->
  nth_error (current_data s) (current_index s) = Some b ->
  _execute_trade hold s =
  (Executed,
   mk_sim (current_data s) (current_index s + 1) (cash s) (position s)
          (trade_log s ++ [mk_trade (Date b) hold (Close b) (Fin 0) (cash s)])
          (equity_curve s ++ [equity s (Close b)])
          (buy_signals s) (sell_signals s)).
Proof.
  intros A E. unfold _execute_trade. now rewrite A, (trade_steps_hold s b E).
Qed.

Lemma at_end_true (s : simulator) :
  at_end s = true ->
  (List.length (current_data s) - 1 - current_index s = 0)%nat.
Proof.
  unfold at_end. rewrite Z.geb_leb, Z.leb_le. lia.
Qed.

(** Holds change neither cash nor position; they are carried out until the
    cursor is on the last row. *)
Lemma hold_run (n : nat) (s : simulator) :
  exists (records : list trade) (values : list num),
    cash (run (repeat hold n) s) = cash s
    /\ position (run (repeat hold n) s) = position s
    /\ trade_log (run (repeat hold n) s) = trade_log s ++ records
    /\ equity_curve (run (repeat hold n) s) = equity_curve s ++ values
    /\ List.length records
       = Nat.min n (List.length (current_data s) - 1 - current_index s)
    /\ Forall (fun t => trade_action t = hold /\ trade_shares t = Fin 0
                        /\ trade_cash t = cash s) records
    /\ Forall (fun v => exists b, In b (current_data s)
                                  /\ v = equity s (Close b)) values.
Proof.
  revert s. induction n as [|n IH]; intros s.
  - exists [], []. cbn [repeat run fold_left]. rewrite !app_nil_r.
    repeat split; try constructor.
  - cbn [repeat]. change (run (hold :: repeat hold n) s)
      with (run (repeat hold n) (snd (_execute_trade hold s))).
    destruct (at_end s) eqn:A.
    + assert (E : snd (_execute_trade hold s) = s)
        by (unfold _execute_trade; now rewrite A).
      rewrite E. destruct (IH s) as (rs & vs & C & P & L & Q & N & F & V).
      exists rs, vs. pose proof (at_end_true s A) as Z.
      repeat split; try assumption. rewrite N, Z. lia.
    + destruct (current_bar_exists s A) as (b & E).
      rewrite (hold_state s b A E). cbn [snd].
      match goal with |- context [run _ ?s1] => destruct (IH s1)
        as (rs & vs & C & P & L & Q & N & F & V) end.
      cbn [cash position trade_log equity_curve current_data current_index] in *.
      apply at_end_false in A.
      exists (mk_trade (Date b) hold (Close b) (Fin 0) (cash s) :: rs),
             (equity s (Close b) :: vs).
      rewrite C, P, L, Q, <- !app_assoc. cbn [app List.length].
      repeat split.
      * rewrite N. lia.
      * constructor; [now repeat split | exact F].
      * constructor.
        -- exists b. split; [eapply nth_error_In, E | reflexivity].
        -- eapply Forall_impl; [|exact V]. intros v (b' & Hb & ->).
           exists b'. split; [exact Hb | reflexivity].
Qed.

Lemma win_loop_holds (log : list trade) (st : win_state) :
  Forall (fun t => trade_action t = hold) log ->
  fold_left win_step log st = st.
Proof.
  intros H. revert st. induction H as [|t log Ht _ IH]; intros st; [reflexivity|].
  cbn [fold_left]. unfold win_step at 2. rewrite Ht. apply IH.
Qed.

Lemma Forall_Fin (P : Q -> Prop) (l : list num) :
  Forall (fun v => exists q, v = Fin q /\ P q) l ->
  exists qs, l = map Fin qs /\ Forall P qs.
Proof.
  induction 1 as [|v l (q & -> & Hq) _ (qs & -> & Hqs)].
  - exists []. split; [reflexivity | constructor].
  - exists (q :: qs). split; [reflexivity | now constructor].
Qed.

Lemma nondecreasing_const (k : Q) (qs : list Q) :
  Forall (fun q => (q == k)%Q) qs -> nondecreasing qs.
Proof.
  induction 1 as [|q qs Hq Hqs IH]; [exact I|].
  destruct Hqs as [|q' qs' Hq' Hqs']; [exact I|].
  split; [rewrite Hq, Hq'; apply Qle_refl | exact IH].
Qed.

(** X11.  A session in which only hold is clicked, [n] times: the holds are
    carried out until the cursor is on the last row (at most the number of
    rows minus 65 of them), cash stays the initial capital and no shares are
    held, every record is a hold with 0 shares, every equity value equals
    the initial capital, and the summary shows a win rate of 0 and a
    maximum drawdown of 0. *)
Theorem hold_only_session (self : simulator) (data : list bar) (n : nat) :
  cash (run (repeat hold n) (_reset_trading_state (set_current_data self data)))
    = Fin (inject_Z INITIAL_CAPITAL)
  /\ position (run (repeat hold n) (_reset_trading_state (set_current_data self data)))
     = Fin 0
  /\ List.length
       (trade_log (run (repeat hold n) (_reset_trading_state (set_current_data self data))))
     = Nat.min n (List.length data - 65)
  /\ Forall (fun t => trade_action t = hold /\ trade_shares t = Fin 0
                      /\ trade_cash t = Fin (inject_Z INITIAL_CAPITAL))
       (trade_log (run (repeat hold n) (_reset_trading_state (set_current_data self data))))
  /\ Forall (fun v => exists q, v = Fin q /\ (q == inject_Z INITIAL_CAPITAL)%Q)
       (equity_curve (run (repeat hold n) (_reset_trading_state (set_current_data self data))))
  /\ win_rate
       (trade_log (run (repeat hold n) (_reset_trading_state (set_current_data self data))))
     = 0%Q
  /\ exists r : Q,
       max_drawdown
         (equity_curve (run (repeat hold n) (_reset_trading_state (set_current_data self data))))
       = Some (Fin r) /\ (r == 0)%Q.
Proof.
  destruct (hold_run n (_reset_trading_state (set_current_data self data)))
    as (rs & vs & C & P & L & Q & N & F & V).
  cbn [cash position trade_log equity_curve current_data current_index
       _reset_trading_state set_current_data app] in *.
  rewrite C, P, L, Q.
  assert (Fh : Forall (fun t => trade_action t = hold) rs)
    by (eapply Forall_impl; [|exact F]; now intros t (H & _)).
  assert (Vq : Forall (fun v => exists q, v = Fin q /\ (q == inject_Z INITIAL_CAPITAL)%Q)
                      (Fin (inject_Z INITIAL_CAPITAL) :: vs)).
  { constructor; [eexists; split; reflexivity|].
    eapply Forall_impl; [|exact V]. intros v (b & _ & ->).
    unfold equity. cbn [cash position _reset_trading_state num_mul num_add].
    eexists. split; [reflexivity | ring]. }
  split; [reflexivity|]. split; [reflexivity|].
  split; [rewrite N; f_equal; lia|].
  split; [exact F|]. split; [exact Vq|].
  split.
  - unfold win_rate, win_loop. now rewrite (win_loop_holds rs _ Fh).
  - destruct (Forall_Fin _ _ Vq) as (qs & Eq & Hqs).
    destruct qs as [|q0 qs]; [discriminate|].
    assert (H0 : (0 < q0)%Q).
    { inversion Hqs as [|? ? Hq0 _]; subst. rewrite Hq0. reflexivity. }
    rewrite Eq.
    exists (fold_left Qmax (drawdowns q0 (q0 :: qs)) 0%Q). split.
    + unfold max_drawdown. cbn [map]. f_equal.
      exact (drawdown_loop_fin (q0 :: qs) q0 0 H0).
    + rewrite fold_left_right_Qmax. apply fold_right_Qmax_zero.
      apply drawdowns_nondecreasing; [exact H0 | apply Qle_refl|].
      exact (nondecreasing_const _ _ Hqs).
Qed.

(** ** Bounds of the statistics *)

Lemma win_loop_bounds (log : list trade) (st : win_state) :
  0 <= win_trades st <= total_trades st ->
  0 <= win_trades (fold_left win_step log st)
    <= total_trades (fold_left win_step log st)
  /\ total_trades (fold_left win_step log st)
     <= total_trades st + Z.of_nat (List.length (filter is_sell log)).
Proof.
  revert st. induction log as [|t log IH]; intros st H.
  - cbn. lia.
  - cbn [fold_left filter].
    assert (S1 : 0 <= win_trades (win_step st t) <= total_trades (win_step st t)
                 /\ total_trades (win_step st t)
                    <= total_trades st + (if is_sell t then 1 else 0)).
    { unfold win_step, is_sell. destruct (trade_action t);
        cbn [win_trades total_trades]; try lia.
      destruct (truthy (last_buy_price st)); cbn [win_trades total_trades];
        [|lia].
      destruct (last_buy_price st) as [e|]; [destruct (Qlt_bool _ _)|]; lia. }
    destruct S1 as [B1 T1]. destruct (IH _ B1) as [B T].
    split; [exact B|].
    destruct (is_sell t); cbn [List.length]; lia.
Qed.

(** X12.  For every trade log the win rate lies between 0 and 1: the wins
    counted never exceed the trades counted, and the trades counted never
    exceed the sells of the log. *)
Theorem win_rate_bounds (log : list trade) :
  0 <= win_trades (win_loop log) <= total_trades (win_loop log)
  /\ total_trades (win_loop log) <= Z.of_nat (List.length (filter is_sell log))
  /\ (0 <= win_rate log <= 1)%Q.
Proof.
  destruct (win_loop_bounds log (mk_win 0 0 None)) as [B T];
    [cbn; lia|].
  cbn [total_trades Z.add] in T. fold (win_loop log) in B, T.
  split; [exact B|]. split; [exact T|].
  unfold win_rate. destruct (0 <? total_trades (win_loop log)) eqn:P.
  - apply Z.ltb_lt in P.
    assert (Pq : (0 < inject_Z (total_trades (win_loop log)))%Q)
      by (rewrite <- (Zlt_Qlt 0); exact P).
    split.
    + apply Qle_shift_div_l; [exact Pq|]. rewrite Qmult_0_l.
      rewrite <- (Zle_Qle 0). lia.
    + apply Qle_shift_div_r; [exact Pq|]. rewrite Qmult_1_l.
      rewrite <- Zle_Qle. lia.
  - split; [apply Qle_refl | discriminate].
Qed.

Lemma drawdowns_le_1 (curve : list Q) (p : Q) :
  (0 < p)%Q -> Forall (fun v => (0 <= v)%Q) curve ->
  Forall (fun d => (d <= 1)%Q) (drawdowns p curve).
Proof.
  intros Hp H. revert p Hp. induction H as [|v curve Hv _ IH]; intros p Hp.
  - constructor.
  - rewrite drawdowns_cons.
    assert (Hq : (0 < Qmax p v)%Q)
      by (eapply Qlt_le_trans; [exact Hp | apply Q.le_max_l]).
    constructor; [|now apply IH].
    apply Qle_shift_div_r; [exact Hq|]. lra.
Qed.

Lemma fold_right_Qmax_le (ds : list Q) (k : Q) :
  (0 <= k)%Q -> Forall (fun d => (d <= k)%Q) ds -> (fold_right Qmax 0 ds <= k)%Q.
Proof.
  intros Hk. induction 1 as [|d ds Hd _ IH]; cbn [fold_right]; [exact Hk|].
  now apply Q.max_lub.
Qed.

(** X13.  For every equity curve of finite values that starts above 0 and
    has no negative value, the maximum drawdown is a finite number between
    0 and 1. *)
Theorem max_drawdown_bounds (first : Q) (rest : list Q) :
  (0 < first)%Q -> Forall (fun v => (0 <= v)%Q) rest ->
  exists r : Q,
    max_drawdown (map Fin (first :: rest)) = Some (Fin r) /\ (0 <= r <= 1)%Q.
Proof.
  intros Hf Hr.
  exists (fold_left Qmax (drawdowns first (first :: rest)) 0%Q). split.
  - unfold max_drawdown. cbn [map]. f_equal.
    exact (drawdown_loop_fin (first :: rest) first 0 Hf).
  - rewrite fold_left_right_Qmax. split.
    + apply fold_right_Qmax_nonneg.
    + apply fold_right_Qmax_le; [lra|].
      apply drawdowns_le_1; [exact Hf|]. constructor; [lra | exact Hr].
Qed.

Lemma max_drawdown_bounds_witness :
  exists r : Q,
    max_drawdown (map Fin sample_curve) = Some (Fin r) /\ (0 <= r <= 1)%Q.
Proof.
  apply (max_drawdown_bounds 100000%Q [110000; 95000; 105000]%Q); [reflexivity|].
  repeat (apply Forall_cons; [discriminate|]). apply Forall_nil.
Defined.

(** ** The summary, the chart window and the info line *)

Lemma run_ledger_shape (acts : list action) (s : simulator) :
  ledger_shape s ->
  ledger_shape (run acts s) /\ current_data (run acts s) = current_data s.
Proof.
  revert s. induction acts as [|a acts IH]; intros s S0; [now split|].
  change (run (a :: acts) s) with (run acts (snd (_execute_trade a s))).
  destruct (IH _ (ledger_shape_step a s S0)) as [S1 D1].
  split; [exact S1|]. rewrite D1.
  destruct (execute_trade_step a s)
    as [[_ E]|(_ & _ & b & r & v & _ & D' & _)]; congruence.
Qed.

Lemma start_ledger_shape (self : simulator) (data : list bar) :
  ledger_shape (_reset_trading_state (set_current_data self data)).
Proof.
  unfold ledger_shape.
  cbn [equity_curve trade_log current_index current_data
       _reset_trading_state set_current_data List.length].
  repeat split; lia.
Qed.

(** X14.  In a session, whatever is clicked, the summary is refused only
    for the reason the code gives, an empty trade log, which is the case
    exactly while the cursor is still on row 64; the equity curve is never
    empty, so the statistics are always computed otherwise, and the final
    value shown is the last value of the curve. *)
Theorem show_summary_defined
        (self : simulator) (data : list bar) (acts : list action) :
  (_show_summary (run acts (_reset_trading_state (set_current_data self data))) = None
   <-> trade_log (run acts (_reset_trading_state (set_current_data self data))) = [])
  /\ (trade_log (run acts (_reset_trading_state (set_current_data self data))) = []
      <-> current_index (run acts (_reset_trading_state (set_current_data self data)))
          = 64%nat)
  /\ (forall sm : summary,
        _show_summary (run acts (_reset_trading_state (set_current_data self data)))
        = Some sm ->
        exists rest : list num,
          equity_curve (run acts (_reset_trading_state (set_current_data self data)))
          = rest ++ [sum_final sm]).
Proof.
  destruct (run_ledger_shape acts _ (start_ledger_shape self data))
    as [(C & I & _) _].
  set (s := run acts (_reset_trading_state (set_current_data self data))) in *.
  assert (N : exists first rest, equity_curve s = first :: rest).
  { destruct (equity_curve s) as [|first rest]; [discriminate | eauto]. }
  destruct N as (first & rest & E).
  assert (M : exists dd, max_drawdown (equity_curve s) = Some dd)
    by (unfold max_drawdown; rewrite E; eauto).
  destruct M as (dd & M).
  unfold _show_summary. rewrite M.
  split; [|split].
  - destruct (trade_log s); split; try reflexivity; discriminate.
  - rewrite I. destruct (trade_log s); cbn [List.length]; split;
      try reflexivity; try discriminate; lia.
  - intros sm. destruct (trade_log s); [discriminate|].
    intros [= <-]. cbn [sum_final].
    exists (removelast (equity_curve s)).
    apply app_removelast_last. rewrite E. discriminate.
Qed.

Lemma clip_nonneg (k len : nat) : (k <= len)%nat -> clip (Z.of_nat k) len = k.
Proof.
  intros H. unfold clip.
  replace (Z.of_nat k <? 0) with false by (symmetry; apply Z.ltb_ge; lia).
  rewrite Nat2Z.id. lia.
Qed.

Lemma rolling_mean_length (period : nat) (xs : list Q) :
  List.length (rolling_mean period xs) = List.length xs.
Proof. unfold rolling_mean. now rewrite length_map, length_seq. Qed.

(** X15.  In a session of at least 65 rows, whatever is clicked, the chart
    shows exactly 65 rows, the last of which is the row at the cursor (no
    row after the cursor is shown), and the moving averages drawn are those
    of the periods 5, 10, 20 and 60, each with 65 entries: the periods 120
    and 250 of the configuration are never drawn. *)
Theorem update_chart_window
        (self : simulator) (data : list bar) (acts : list action) :
  (65 <= List.length data)%nat ->
  List.length
    (plot_data (_update_chart (run acts (_reset_trading_state (set_current_data self data)))))
  = 65%nat
  /\ (forall i : nat, (i < 65)%nat ->
        nth_error
          (plot_data (_update_chart (run acts (_reset_trading_state (set_current_data self data)))))
          i
        = nth_error data
            (current_index (run acts (_reset_trading_state (set_current_data self data)))
             - 64 + i)%nat)
  /\ map (fun m => (fst (fst m), snd (fst m), List.length (snd m)))
         (ma_plots (_update_chart (run acts (_reset_trading_state (set_current_data self data)))))
     = [(5, "#1f77b4", 65); (10, "#ff7f0e", 65);
        (20, "#2ca02c", 65); (60, "#d62728", 65)]%nat%string.
Proof.
  intros L.
  destruct (run_ledger_shape acts _ (start_ledger_shape self data))
    as [(_ & I & B) D].
  cbn [current_data _reset_trading_state set_current_data] in D.
  set (s := run acts (_reset_trading_state (set_current_data self data))) in *.
  rewrite D in B.
  assert (W : plot_data (_update_chart s)
              = slice data (current_index s - 64) (current_index s - 64 + 65)).
  { unfold _update_chart. cbn [plot_data]. unfold iloc_slice. rewrite D.
    replace (Z.of_nat (current_index s) - 64) with (Z.of_nat (current_index s - 64))
      by lia.
    replace (Z.of_nat (current_index s) + 1) with (Z.of_nat (current_index s + 1))
      by lia.
    rewrite !clip_nonneg by lia. f_equal. lia. }
  assert (Len : List.length (plot_data (_update_chart s)) = 65%nat)
    by (rewrite W; apply slice_window_length; lia).
  split; [exact Len|]. split.
  - intros i Hi. rewrite W. now apply slice_nth_error.
  - unfold _update_chart in *. cbn [plot_data ma_plots] in *.
    rewrite Len. cbn [MA_PERIODS MA_COLORS combine filter fst snd Nat.ltb Nat.leb map].
    rewrite !rolling_mean_length, !length_map, Len. reflexivity.
Qed.

Lemma update_chart_window_witness :
  List.length (plot_data (_update_chart (run [buy; hold] sample_start))) = 65%nat.
Proof.
  exact (proj1 (update_chart_window init_simulator (repeat sample_bar 70) [buy; hold]
                  ltac:(vm_compute; lia))).
Defined.

(** ** Signal markers *)

Lemma date_eqb_eq (a b : datetime) : date_eqb a b = true <-> a = b.
Proof.
  unfold date_eqb. rewrite !andb_true_iff, !Z.eqb_eq.
  destruct a, b; cbn. split.
  - intros [[-> ->] ->]. reflexivity.
  - intros [= -> -> ->]. auto.
Qed.

Lemma date_eqb_refl (a : datetime) : date_eqb a a = true.
Proof. now apply date_eqb_eq. Qed.

Lemma signal_at_loc_set_same (frame : list (datetime * Q)) (d : datetime) (p : Q) :
  signal_at (loc_set frame d p) d = Some p.
Proof.
  unfold signal_at. induction frame as [|[d0 p0] rows IH]; cbn [loc_set find fst].
  - now rewrite date_eqb_refl.
  - destruct (date_eqb d0 d) eqn:E; cbn [find fst]; rewrite E; [reflexivity|].
    exact IH.
Qed.

Lemma signal_at_loc_set_other (frame : list (datetime * Q)) (d d' : datetime) (p : Q) :
  d' <> d -> signal_at (loc_set frame d p) d' = signal_at frame d'.
Proof.
  intros N. unfold signal_at.
  induction frame as [|[d0 p0] rows IH]; cbn [loc_set find fst].
  - destruct (date_eqb d d') eqn:E; [|reflexivity].
    apply date_eqb_eq in E. congruence.
  - destruct (date_eqb d0 d) eqn:E; cbn [find fst].
    + apply date_eqb_eq in E. subst d0.
      destruct (date_eqb d d') eqn:E'; [|reflexivity].
      apply date_eqb_eq in E'. congruence.
    + destruct (date_eqb d0 d'); [reflexivity | exact IH].
Qed.

Lemma loc_set_keys (frame : list (datetime * Q)) (d : datetime) (p : Q) :
  map fst (loc_set frame d p)
  = if existsb (fun row => date_eqb (fst row) d) frame
    then map fst frame else map fst frame ++ [d].
Proof.
  induction frame as [|[d0 p0] rows IH]; cbn [loc_set existsb map fst app];
    [reflexivity|].
  destruct (date_eqb d0 d); cbn [orb map fst]; [reflexivity|].
  rewrite IH. now destruct (existsb _ rows).
Qed.

Lemma loc_set_NoDup (frame : list (datetime * Q)) (d : datetime) (p : Q) :
  NoDup (map fst frame) -> NoDup (map fst (loc_set frame d p)).
Proof.
  intros H. rewrite loc_set_keys.
  destruct (existsb _ frame) eqn:E; [exact H|].
  apply NoDup_app; [exact H | repeat constructor; intros [] |].
  intros x Hx [<-|[]].
  apply in_map_iff in Hx. destruct Hx as ([d0 p0] & <- & Hin).
  assert (existsb (fun row => date_eqb (fst row) (fst (d0, p0))) frame = true).
  { apply existsb_exists. exists (d0, p0). split; [exact Hin | apply date_eqb_refl]. }
  congruence.
Qed.

(** X16.  An accepted buy leaves a buy marker for the date of the current
    row at its close and leaves every other buy marker and all sell markers
    as they were; an accepted sell does the same with the sell markers; a
    hold changes no marker.  A marker frame with one row per date keeps one
    row per date. *)
Theorem trade_markers (act : action) (s : simulator) :
  fst (_execute_trade act s) = Executed ->
  exists b : bar,
    nth_error (current_data s) (current_index s) = Some b
    /\ match act with
       | buy =>
           signal_at (buy_signals (snd (_execute_trade act s))) (Date b)
             = Some (Close b)
           /\ (forall d, d <> Date b ->
                 signal_at (buy_signals (snd (_execute_trade act s))) d
                 = signal_at (buy_signals s) d)
           /\ sell_signals (snd (_execute_trade act s)) = sell_signals s
       | sell =>
           signal_at (sell_signals (snd (_execute_trade act s))) (Date b)
             = Some (Close b)
           /\ (forall d, d <> Date b ->
                 signal_at (sell_signals (snd (_execute_trade act s))) d
                 = signal_at (sell_signals s) d)
           /\ buy_signals (snd (_execute_trade act s)) = buy_signals s
       | hold =>
           buy_signals (snd (_execute_trade act s)) = buy_signals s
           /\ sell_signals (snd (_execute_trade act s)) = sell_signals s
       end
    /\ (NoDup (map fst (buy_signals s)) ->
        NoDup (map fst (buy_signals (snd (_execute_trade act s)))))
    /\ (NoDup (map fst (sell_signals s)) ->
        NoDup (map fst (sell_signals (snd (_execute_trade act s))))).
Proof.
  unfold _execute_trade. destruct (at_end s) eqn:H; [discriminate|].
  destruct (current_bar_exists s H) as (b & E). intros X. exists b.
  split; [exact E|]. destruct act.
  - rewrite (trade_steps_buy s b E) in *.
    destruct (num_gt _ _); [discriminate|]. cbv zeta in *.
    destruct (num_lt _ _); [discriminate|].
    cbn [snd buy_signals sell_signals].
    repeat split; auto using signal_at_loc_set_same, loc_set_NoDup.
    intros d N. now apply signal_at_loc_set_other.
  - rewrite (trade_steps_sell s b E) in *.
    destruct (num_eq _ _); [discriminate|].
    cbn [snd buy_signals sell_signals].
    repeat split; auto using signal_at_loc_set_same, loc_set_NoDup.
    intros d N. now apply signal_at_loc_set_other.
  - rewrite (trade_steps_hold s b E) in *.
    cbn [snd buy_signals sell_signals]. repeat split; auto.
Qed.

Lemma trade_markers_witness :
  signal_at (buy_signals (snd (_execute_trade buy sample_start))) (mk_date 2023 1 3)
  = Some (33333 # 100)%Q.
Proof.
  destruct (trade_markers buy sample_start eq_refl) as (b & E & (M & _) & _).
  injection E as <-. exact M.
Defined.

(** ** The info line *)

(** X17.  After an accepted action the info line can always be written: the
    cursor is on a row of the frame, the row after the one that was traded,
    and the total shown is the cash plus the position at the close of that
    next row. *)
Theorem update_info_after_trade (act : action) (s : simulator) :
  fst (_execute_trade act s) = Executed ->
  exists next : bar,
    nth_error (current_data s) (S (current_index s)) = Some next
    /\ _update_info (snd (_execute_trade act s))
       = Some (mk_info (Date next) (Open next) (Close next)
                       (position (snd (_execute_trade act s)))
                       (cash (snd (_execute_trade act s)))
                       (equity (snd (_execute_trade act s)) (Close next))).
Proof.
  intros X.
  destruct (execute_trade_step act s)
    as [[N _]|(_ & A & b & r & v & _ & D & I & _)]; [contradiction|].
  apply at_end_false in A.
  destruct (nth_error (current_data s) (S (current_index s))) as [next|] eqn:E.
  - exists next. split; [reflexivity|].
    unfold _update_info. now rewrite D, I, E.
  - apply nth_error_None in E. lia.
Qed.

Lemma update_info_after_trade_witness :
  option_map info_close (_update_info (snd (_execute_trade buy sample_start)))
  = Some (33333 # 100)%Q.
Proof.
  destruct (update_info_after_trade buy sample_start eq_refl) as (next & E & U).
  injection E as <-. rewrite U. reflexivity.
Defined.
